(** * Session authentication and access control of the billing backend

    A shallow embedding of [src/app.py]: the FastAPI application that
    exchanges an OAuth code for a JWT, issues a Redis-backed session,
    validates it on every protected request, gates the billing pages
    behind the access controller and delegates payments and adjustments
    to stored functions of the Oracle database.

    Python objects are modelled by the inductive [value]; the Redis store
    by a finite map from keys to a serialized payload and its time-to-live;
    handlers by a state-and-exception monad over the [world] (Redis, the
    database and a log of the calls made to external collaborators).
    The collaborators that are not part of [src/app.py] (the JSON and JWT
    libraries, the token endpoint, the access controller, the SQL queries
    and stored functions) are the fields of the record [Env]. *)

From Stdlib Require Import ZArith Bool List Ascii String DecimalString Lia.
From Stdlib Require DecimalPos DecimalN.
From stdpp Require Import base option gmap strings list.

Set Warnings "-register-all".

Local Open Scope Z_scope.
Local Open Scope string_scope.

(** ** Python strings *)

Module PyStr.

(** [str.endswith]: the tail of [s] of the length of [suffix] is compared
    with [suffix]; a suffix longer than [s] never matches. *)
Definition endswith (s suffix : string) : bool :=
  (String.length suffix <=? String.length s)%nat
  && String.eqb
       (substring (String.length s - String.length suffix)
                  (String.length suffix) s)
       suffix.

(** [not s] for a string: only the empty string is falsy. *)
Definition is_empty (s : string) : bool :=
  match s with EmptyString => true | String _ _ => false end.

(** [str(n)] for an [int]. *)
Definition str_of_int (n : Z) : string :=
  NilZero.string_of_int (Z.to_int n).

(** [int(s)]: [None] stands for the [ValueError] of a malformed literal. *)
Definition int_of_str (s : string) : option Z :=
  match NilZero.int_of_string s with
  | Some d => Some (Z.of_int d)
  | None => None
  end.

End PyStr.

(** ** Python objects *)

(** The objects that [json.loads], [jwt.decode] and the database driver
    hand to the application.  Dictionaries keep their items in insertion
    order. *)
Inductive value : Type :=
| VNone
| VBool (b : bool)
| VInt (n : Z)
| VStr (s : string)
| VList (items : list value)
| VDict (items : list (string * value)).

(** Truth value of an object, as tested by [if x] and [not x]. *)
Definition truthy (v : value) : bool :=
  match v with
  | VNone => false
  | VBool b => b
  | VInt n => negb (Z.eqb n 0)
  | VStr s => negb (PyStr.is_empty s)
  | VList items => match items with [] => false | _ :: _ => true end
  | VDict items => match items with [] => false | _ :: _ => true end
  end.

(** [d.get(key)] on the items of a dictionary. *)
Fixpoint dict_get (key : string) (items : list (string * value)) : option value :=
  match items with
  | [] => None
  | (k, v) :: rest => if String.eqb k key then Some v else dict_get key rest
  end.

(** ** Roles *)

(** [get_role]: the role is read off the suffix of the username; the
    function falls off its end, returning [None], for any other name. *)
Definition get_role (username : string) : option string :=
  if PyStr.endswith username "_u1" then Some "customer"
  else if PyStr.endswith username "_u2" then Some "bank_cashier"
  else if PyStr.endswith username "_u3" then Some "disco_employee"
  else None.

(** ** Exceptions, responses and the collaborators *)

(** What a handler can raise: the [HTTPException] of FastAPI, caught by
    the application's exception handler, or a Python exception that no
    handler of the application catches. *)
Inductive exn : Type :=
| HTTPException (status_code : Z) (detail : string)
| KeyError (key : string)
| TypeError
| AttributeError
| ValueError
| JSONDecodeError.

Inductive result (A : Type) : Type :=
| Returned (a : A)
| Raised (e : exn).
Arguments Returned {A} a.
Arguments Raised {A} e.

(** [datetime.datetime.now()]. *)
Record datetime : Type := {
  year : Z; month : Z; day : Z;
  hour : Z; minute : Z; second : Z; microsecond : Z
}.

(** The dictionary returned by [validate_session]. *)
Record user : Type := { username : string; role : option string }.

(** Outcome of [jwt.decode(jwt_token, SECRET_KEY, algorithms=[ALGORITHM])]. *)
Inductive jwt_result : Type :=
| ExpiredSignatureError
| InvalidTokenError
| Claims (decoded_token : list (string * value)).

(** Outcome of the token request: [requests.post], [raise_for_status]
    and [response.json()] either raise a [RequestException], whose text
    is kept, or yield the decoded body. *)
Inductive post_result : Type :=
| RequestException (text : string)
| TokenInfo (token_info : value).

(** The collaborators of [src/app.py].  [DB] is the state of the Oracle
    database and [number] the type of the amounts (a Python [float] from
    the form, a [NUMBER] column from the driver) with its [==]. *)
Record Env : Type := {
  DB : Type;
  number : Type;
  number_eqb : number -> number -> bool;
  bill_details : Type;
  (* access_ctrl.is_allowed(role, function) *)
  is_allowed : option string -> string -> bool;
  (* json.loads (None: JSONDecodeError) and json.dumps *)
  json_loads : string -> option value;
  json_dumps : value -> string;
  jwt_decode : value -> jwt_result;
  (* requests.post(token_url, data = {code, ...}) for a given code *)
  requests_post : string -> post_result;
  (* SELECT B.BILLID FROM BILL B WHERE B.BILLID = {bill_id} *)
  select_bill : DB -> Z -> option Z;
  (* SELECT B.BILLID, B.TotalAmount_BeforeDueDate FROM BILL B WHERE ... *)
  select_bill_amount : DB -> Z -> option (Z * number);
  (* SELECT PD.PaymentStatus FROM PAYMENTDETAILS PD WHERE PD.BILLID = ... *)
  select_payment_status : DB -> Z -> option value;
  (* SELECT PaymentMethodDescription FROM PaymentMethods WHERE ... *)
  select_payment_method : DB -> Z -> option string;
  fun_process_Payment : DB -> Z -> datetime -> Z -> number -> DB * Z;
  fun_adjust_Bill :
    DB -> Z -> Z -> datetime -> string -> string -> number -> number -> string
    -> DB * Z;
  (* util.get_bill_data and the dictionary built from its rows, or
     str(e) of the exception raised on the way *)
  get_bill_data :
    DB -> string -> string -> string -> string -> (bill_details + string)%type
}.

(** Calls made to the collaborators, in the order they are made. *)
Inductive event (E : Env) : Type :=
| IsAllowed (role : option string) (function : string)
| RedisGet (key : string)
| RedisSetex (key : string) (ttl : Z) (payload : string)
| RedisDelete (key : string)
| ProcessPayment (bill_id : Z) (payment_date : datetime)
    (payment_method_id : Z) (amount : number E)
| AdjustBill (adjustment_id bill_id : Z) (adjustment_date : datetime)
    (officer_name officer_designation : string)
    (original_bill_amount adjustment_amount : number E)
    (adjustment_reason : string).
Arguments IsAllowed {E}.
Arguments RedisGet {E}.
Arguments RedisSetex {E}.
Arguments RedisDelete {E}.
Arguments ProcessPayment {E}.
Arguments AdjustBill {E}.

(** Redis, the database, and the calls made so far.  A Redis entry is the
    stored string with the seconds it has left to live. *)
Record world (E : Env) : Type := {
  redis_db : gmap string (string * Z);
  database : DB E;
  calls : list (event E)
}.
Arguments redis_db {E}.
Arguments database {E}.
Arguments calls {E}.

(** Cookie operations recorded on a response. *)
Inductive cookie_op : Type :=
| SetCookie (key value : string) (httponly : bool) (max_age : Z)
    (samesite : string) (secure : bool)
| DeleteCookie (key : string).

Record payment_details (E : Env) : Type := {
  pd_bill_id : Z;
  pd_amount : number E;
  pd_payment_method_id : Z;
  pd_payment_method_description : string;
  pd_payment_date : datetime;
  pd_payment_status : value
}.

Record adjustment_details (E : Env) : Type := {
  ad_bill_id : Z;
  ad_officer_name : string;
  ad_officer_designation : string;
  ad_original_bill_amount : number E;
  ad_adjustment_amount : number E;
  ad_adjustment_reason : string;
  ad_adjustment_date : datetime;
  ad_confirmation_number : Z
}.

(** The context handed to a template. *)
Inductive context (E : Env) : Type :=
| CtxIndex
| CtxUser (u : user)
| CtxError (error_msg : string)
| CtxPayment (d : payment_details E)
| CtxBill (d : bill_details E)
| CtxAdjustment (d : adjustment_details E).
Arguments CtxIndex {E}.
Arguments CtxUser {E}.
Arguments CtxError {E}.
Arguments CtxPayment {E}.
Arguments CtxBill {E}.
Arguments CtxAdjustment {E}.

Inductive response (E : Env) : Type :=
| TemplateResponse (name : string) (ctx : context E)
| RedirectResponse (url : string) (status_code : Z) (cookies : list cookie_op)
| JSONResponse (status_code : Z) (detail : string).
Arguments TemplateResponse {E}.
Arguments RedirectResponse {E}.
Arguments JSONResponse {E}.

(** ** The handler monad *)

(** A handler runs in a world and either returns or raises; what it did
    to Redis and to the database before raising stays done. *)
Definition M (E : Env) (A : Type) : Type := world E -> result A * world E.

#[global] Instance M_ret (E : Env) : MRet (M E) :=
  fun A a w => (Returned a, w).

#[global] Instance M_bind (E : Env) : MBind (M E) :=
  fun A B k m w =>
    match m w with
    | (Returned a, w') => k a w'
    | (Raised e, w') => (Raised e, w')
    end.

Section Handlers.

Context (E : Env).

Definition raise {A : Type} (e : exn) : M E A :=
  fun w => (Raised e, w).

(** The world after some more calls have been made. *)
Definition logged (w : world E) (evs : list (event E)) : world E :=
  {| redis_db := redis_db w; database := database w;
     calls := calls w ++ evs |}.

(** Redis some seconds later: every entry has that much less to live,
    and those whose time has run out are gone. *)
Definition redis_elapse (seconds : Z) (r : gmap string (string * Z))
  : gmap string (string * Z) :=
  omap (fun entry : string * Z =>
          if Z.ltb seconds (snd entry)
          then Some (fst entry, snd entry - seconds)
          else None) r.

Definition elapse (seconds : Z) (w : world E) : world E :=
  {| redis_db := redis_elapse seconds (redis_db w);
     database := database w; calls := calls w |}.

Definition record (ev : event E) : M E unit :=
  fun w => (Returned tt, logged w [ev]).

Definition with_redis (f : gmap string (string * Z) -> gmap string (string * Z))
  : M E unit :=
  fun w =>
    (Returned tt,
     {| redis_db := f (redis_db w); database := database w; calls := calls w |}).

Definition get_world : M E (world E) :=
  fun w => (Returned w, w).

(** A stored function runs on the database and leaves it changed. *)
Definition with_database {A : Type} (f : DB E -> DB E * A) : M E A :=
  fun w =>
    let '(db', a) := f (database w) in
    (Returned a,
     {| redis_db := redis_db w; database := db'; calls := calls w |}).

(** [redis_db.get(key)]: the stored string, or [None]. *)
Definition redis_get (key : string) : M E (option string) :=
  _ ← record (RedisGet key);
  w ← get_world;
  mret (fst <$> redis_db w !! key).

(** [redis_db.setex(key, ttl, payload)]. *)
Definition redis_setex (key : string) (ttl : Z) (payload : string) : M E unit :=
  _ ← record (RedisSetex key ttl payload);
  with_redis (insert key (payload, ttl)).

(** [redis_db.delete(key)]. *)
Definition redis_delete (key : string) : M E unit :=
  _ ← record (RedisDelete key);
  with_redis (delete key).

(** [access_ctrl.is_allowed(role, function)]. *)
Definition access_ctrl_is_allowed (role : option string) (function : string)
  : M E bool :=
  _ ← record (IsAllowed role function);
  mret (is_allowed E role function).

(** [cursor.callfunc("fun_process_Payment", int, [...])]. *)
Definition callfunc_process_Payment (bill_id : Z) (payment_date : datetime)
    (payment_method_id : Z) (amount : number E) : M E Z :=
  _ ← record (ProcessPayment bill_id payment_date payment_method_id amount);
  with_database
    (fun db =>
       fun_process_Payment E db bill_id payment_date payment_method_id amount).

(** [cursor.callfunc("fun_adjust_Bill", int, [...])]. *)
Definition callfunc_adjust_Bill (adjustment_id bill_id : Z)
    (adjustment_date : datetime) (officer_name officer_designation : string)
    (original_bill_amount adjustment_amount : number E)
    (adjustment_reason : string) : M E Z :=
  _ ← record (AdjustBill adjustment_id bill_id adjustment_date officer_name
                officer_designation original_bill_amount adjustment_amount
                adjustment_reason);
  with_database
    (fun db =>
       fun_adjust_Bill E db adjustment_id bill_id adjustment_date officer_name
         officer_designation original_bill_amount adjustment_amount
         adjustment_reason).

(** A query reads the database of the current world. *)
Definition query {A : Type} (q : DB E -> A) : M E A :=
  w ← get_world;
  mret (q (database w)).

(** ** Configuration *)

Definition SESSION_COOKIE_NAME : string := "session_token".

(** [datetime.timedelta], by its [total_seconds()]. *)
Record timedelta : Type := { total_seconds : Z }.

Definition SESSION_DURATION : timedelta := {| total_seconds := 15 |}.

(** The address the application redirects to on expiry and on sign-out:
    the welcome page. *)
Definition WELCOME_PAGE : string := "https://168.138.178.200".

(** [not x] for an optional string ([str | None]). *)
Definition missing (x : option string) : bool :=
  match x with
  | None => true
  | Some s => PyStr.is_empty s
  end.

(** ** Session validation *)

(** [validate_session], the dependency of the protected routes. *)
Definition validate_session (session_token : option string) : M E user :=
  match session_token with
  | None =>
      raise (HTTPException 401 "Not authenticated. Session token missing")
  | Some token =>
      if PyStr.is_empty token then
        raise (HTTPException 401 "Not authenticated. Session token missing")
      else
        session_payload ← redis_get token;
        if missing session_payload then
          raise (HTTPException 401 "Token has expired")
        else
          match json_loads E (default "" session_payload) with
          | None => raise JSONDecodeError
          | Some (VDict items) =>
              match dict_get "username" items with
              | None => raise (KeyError "username")
              | Some name =>
                  if negb (truthy name) then
                    raise (HTTPException 401 "Username missing in session token")
                  else
                    match name with
                    | VStr u => mret {| username := u; role := get_role u |}
                    | _ => raise AttributeError
                    end
              end
          | Some _ => raise TypeError
          end
  end.

(** ** The authorization callback *)

(** [getAccessToken], the handler of [POST /callback].  [session_id] is
    the string of the UUID drawn for this request by [uuid.uuid4()]. *)
Definition getAccessToken (code : option string) (session_id : string)
  : M E (response E) :=
  if missing code then
    raise (HTTPException 400 "Authorization code not provided/missing.")
  else
    match requests_post E (default "" code) with
    | RequestException text =>
        raise (HTTPException 500 ("Error fetching token: " +:+ text))
    | TokenInfo (VDict token_info) =>
        let jwt_token := default VNone (dict_get "token" token_info) in
        if negb (truthy jwt_token) then
          raise (HTTPException 401 "Failed to retrieve token.")
        else
          match jwt_decode E jwt_token with
          | ExpiredSignatureError =>
              raise (HTTPException 401 "Token has expired")
          | InvalidTokenError =>
              raise (HTTPException 401 "Invalid Token")
          | Claims decoded_token =>
              let name := default VNone (dict_get "sub" decoded_token) in
              if negb (truthy name) then
                raise (HTTPException 401 "Invalid Token: Missing Username")
              else
                let session_payload :=
                  VDict [("username", name); ("role", VNone)] in
                _ ← redis_setex session_id 15 (json_dumps E session_payload);
                mret (RedirectResponse "/dashboard" 302
                        [SetCookie SESSION_COOKIE_NAME session_id true
                           (total_seconds SESSION_DURATION) "none" true])
          end
    | TokenInfo _ => raise AttributeError
    end.

(** ** The exception handler and sign-out *)

(** [custom_http_exception_handler]. *)
Definition custom_http_exception_handler (status_code : Z) (detail : string)
  : response E :=
  if Z.eqb status_code 401 && String.eqb detail "Token has expired" then
    RedirectResponse WELCOME_PAGE 302 []
  else
    JSONResponse status_code detail.

(** [sign_out], the handler of [GET /sign-out]. *)
Definition sign_out (session_token : option string) : M E (response E) :=
  _ ← (if missing session_token then mret tt
       else redis_delete (default "" session_token));
  mret (RedirectResponse WELCOME_PAGE 302 [DeleteCookie SESSION_COOKIE_NAME]).

(** ** Pages *)

Definition get_index : M E (response E) :=
  mret (TemplateResponse "index.html" CtxIndex).

Definition get_dashboard (u : user) : M E (response E) :=
  mret (TemplateResponse "dashboard.html" (CtxUser u)).

Definition get_bill_payment (u : user) : M E (response E) :=
  let function := "/bill-payment" in
  allowed ← access_ctrl_is_allowed (role u) function;
  if negb allowed then raise (HTTPException 403 "Forbidden")
  else mret (TemplateResponse "bill_payment.html" (CtxUser u)).

Definition get_bill_retrieval (u : user) : M E (response E) :=
  let function := "/bill-retrieval" in
  allowed ← access_ctrl_is_allowed (role u) function;
  if negb allowed then raise (HTTPException 403 "Forbidden")
  else mret (TemplateResponse "bill_retrieval.html" (CtxUser u)).

Definition get_bill_adjustment (u : user) : M E (response E) :=
  let function := "/bill-adjustment" in
  allowed ← access_ctrl_is_allowed (role u) function;
  if negb allowed then raise (HTTPException 403 "Forbidden")
  else mret (TemplateResponse "bill_adjustments.html" (CtxUser u)).

(** ** Billing *)

Definition error_page (error_msg : string) : response E :=
  TemplateResponse "error.html" (CtxError error_msg).

Definition REQUEST_FAILED : string :=
  "An error occured while processing the request. Please try again. Make sure the values are correct".

(** [cursor.fetchone()[0]]: subscripting [None] is a [TypeError]. *)
Definition first_column {A : Type} (row : option A) : M E A :=
  match row with
  | Some a => mret a
  | None => raise TypeError
  end.

(** [post_bill_payment], the handler of [POST /bill-payment];
    [payment_date] is [datetime.datetime.now()]. *)
Definition post_bill_payment (bill_id : Z) (amount : number E)
    (payment_method_id : Z) (payment_date : datetime) : M E (response E) :=
  bill_row ← query (fun db => select_bill E db bill_id);
  match bill_row with
  | None => mret (error_page "Invalid BillID provided.")
  | Some _ =>
      status ← callfunc_process_Payment bill_id payment_date
                 payment_method_id amount;
      if negb (Z.eqb status 1) then mret (error_page REQUEST_FAILED)
      else
        status_row ← query (fun db => select_payment_status E db bill_id);
        paymentstatus ← first_column status_row;
        method_row ← query (fun db => select_payment_method E db payment_method_id);
        pd_description ← first_column method_row;
        mret (TemplateResponse "payment_receipt.html"
                (CtxPayment
                   {| pd_bill_id := bill_id;
                      pd_amount := amount;
                      pd_payment_method_id := payment_method_id;
                      pd_payment_method_description := pd_description;
                      pd_payment_date := payment_date;
                      pd_payment_status := paymentstatus |}))
  end.

(** [post_bill_retrieval], the handler of [POST /bill-retrieval]: any
    exception raised while the bill is put together ends on the error
    page, whose message carries the text of the exception. *)
Definition post_bill_retrieval (customer_id connection_id month_ year_ : string)
  : M E (response E) :=
  details ← query (fun db =>
               get_bill_data E db customer_id connection_id month_ year_);
  match details with
  | inl d => mret (TemplateResponse "bill_details.html" (CtxBill d))
  | inr text =>
      mret (error_page ("An error occured processing the request: " +:+ text))
  end.

(** The confirmation number: the decimal digits of the bill, the year
    and the month, read back as one integer. *)
Definition adjustment_id_of (bill_id : Z) (adjustment_DATE : datetime)
  : option Z :=
  PyStr.int_of_str
    (PyStr.str_of_int bill_id
     +:+ PyStr.str_of_int (year adjustment_DATE)
     +:+ PyStr.str_of_int (month adjustment_DATE)).

(** [post_bill_adjustments], the handler of [POST /bill-adjustments];
    [adjustment_DATE] is [datetime.datetime.now()]. *)
Definition post_bill_adjustments (bill_id : Z)
    (officer_name officer_designation : string)
    (original_bill_amount adjustment_amount : number E)
    (adjustment_reason : string) (adjustment_DATE : datetime)
  : M E (response E) :=
  bill_row ← query (fun db => select_bill_amount E db bill_id);
  match bill_row with
  | None => mret (error_page "Invalid BillID provided.")
  | Some (_, amount_due) =>
      if negb (number_eqb E original_bill_amount amount_due) then
        mret (error_page
                "The original bill amount provided does not match the actual amount due.")
      else
        status_row ← query (fun db => select_payment_status E db bill_id);
        paymentstatus ← first_column status_row;
        if truthy paymentstatus then
          mret (error_page
                  "The bill has already been paid. Adjustments cannot be made to a paid bill.")
        else
          match adjustment_id_of bill_id adjustment_DATE with
          | None => raise ValueError
          | Some adjustment_id =>
              result ← callfunc_adjust_Bill adjustment_id bill_id
                         adjustment_DATE officer_name officer_designation
                         original_bill_amount adjustment_amount
                         adjustment_reason;
              if Z.eqb result 1 then
                mret (TemplateResponse "adjustment_receipt.html"
                        (CtxAdjustment
                           {| ad_bill_id := bill_id;
                              ad_officer_name := officer_name;
                              ad_officer_designation := officer_designation;
                              ad_original_bill_amount := original_bill_amount;
                              ad_adjustment_amount := adjustment_amount;
                              ad_adjustment_reason := adjustment_reason;
                              ad_adjustment_date := adjustment_DATE;
                              ad_confirmation_number := adjustment_id |}))
              else mret (error_page REQUEST_FAILED)
          end
  end.

End Handlers.

(** ** Requests and routing *)

Inductive http_method : Type := GET | POST.

#[global] Instance http_method_eq_dec : EqDecision http_method.
Proof. solve_decision. Defined.

(** The form fields of a request, already converted to the types the
    handlers declare. *)
Inductive form_data (E : Env) : Type :=
| NoForm
| PaymentForm (bill_id : Z) (amount : number E) (payment_method_id : Z)
| RetrievalForm (customer_id connection_id month_ year_ : string)
| AdjustmentsForm (bill_id : Z) (officer_name officer_designation : string)
    (original_bill_amount adjustment_amount : number E)
    (adjustment_reason : string).
Arguments NoForm {E}.
Arguments PaymentForm {E}.
Arguments RetrievalForm {E}.
Arguments AdjustmentsForm {E}.

(** A request, with what the environment decides while it is served:
    the UUID that [uuid.uuid4()] draws and the time [datetime.now()]
    reads. *)
Record request (E : Env) : Type := {
  method : http_method;
  path : string;
  cookie_session_token : option string;
  query_code : option string;
  form : form_data E;
  uuid4 : string;
  now : datetime
}.
Arguments method {E}.
Arguments path {E}.
Arguments cookie_session_token {E}.
Arguments query_code {E}.
Arguments form {E}.
Arguments uuid4 {E}.
Arguments now {E}.

(** What the client receives: a response of the application, or one of
    the framework's own (a request that matches no route, a form that
    does not validate, an exception nobody caught). *)
Inductive reply (E : Env) : Type :=
| Reply (r : response E)
| NotFound
| MethodNotAllowed
| UnprocessableEntity
| ServerError (e : exn).
Arguments Reply {E}.
Arguments NotFound {E}.
Arguments MethodNotAllowed {E}.
Arguments UnprocessableEntity {E}.
Arguments ServerError {E}.

Section Application.

Context (E : Env).

(** An endpoint is served either by its handler or, when the form does
    not have the declared fields, by the framework's validation error. *)
Definition endpoint : Type := request E -> option (M E (response E)).

(** [Depends(validate_session)]: the dependency runs first, on the
    session cookie of the request. *)
Definition protected (handler : user -> M E (response E)) : endpoint :=
  fun req =>
    Some (u ← validate_session E (cookie_session_token req); handler u).

(** The routes in the order the decorators register them. *)
Definition routes : list (http_method * string * endpoint) :=
  [ (GET, "/", fun _ => Some (get_index E));
    (POST, "/callback",
      fun req => Some (getAccessToken E (query_code req) (uuid4 req)));
    (GET, "/sign-out",
      fun req => Some (sign_out E (cookie_session_token req)));
    (GET, "/dashboard", protected (get_dashboard E));
    (GET, "/bill-payment", protected (get_bill_payment E));
    (GET, "/bill-retrieval", protected (get_bill_retrieval E));
    (GET, "/bill-adjustments", protected (get_bill_adjustment E));
    (POST, "/bill-payment",
      fun req =>
        match form req with
        | PaymentForm bill_id amount payment_method_id =>
            Some (post_bill_payment E bill_id amount payment_method_id (now req))
        | _ => None
        end);
    (POST, "/bill-retrieval",
      fun req =>
        match form req with
        | RetrievalForm customer_id connection_id month_ year_ =>
            Some (post_bill_retrieval E customer_id connection_id month_ year_)
        | _ => None
        end);
    (POST, "/bill-adjustments",
      fun req =>
        match form req with
        | AdjustmentsForm bill_id officer_name officer_designation
            original_bill_amount adjustment_amount adjustment_reason =>
            Some (post_bill_adjustments E bill_id officer_name
                    officer_designation original_bill_amount
                    adjustment_amount adjustment_reason (now req))
        | _ => None
        end) ].

(** The first route with the method and the path of the request. *)
Fixpoint find_route (m : http_method) (p : string)
    (rs : list (http_method * string * endpoint)) : option endpoint :=
  match rs with
  | [] => None
  | (m', p', ep) :: rest =>
      if bool_decide (m' = m) && String.eqb p' p then Some ep
      else find_route m p rest
  end.

Definition path_known (p : string)
    (rs : list (http_method * string * endpoint)) : bool :=
  existsb (fun r => String.eqb (snd (fst r)) p) rs.

(** Serving one request: the handler of the route runs, and what it
    raises goes through the exception handlers. *)
Definition app (req : request E) (w : world E) : reply E * world E :=
  match find_route (method req) (path req) routes with
  | None =>
      (if path_known (path req) routes then MethodNotAllowed else NotFound, w)
  | Some ep =>
      match ep req with
      | None => (UnprocessableEntity, w)
      | Some handler =>
          match handler w with
          | (Returned r, w') => (Reply r, w')
          | (Raised (HTTPException status_code detail), w') =>
              (Reply (custom_http_exception_handler E status_code detail), w')
          | (Raised e, w') => (ServerError e, w')
          end
      end
  end.

End Application.

(** ** Statements the properties are written with *)

Section SessionReadings.

Context (E : Env).

(** The two-case reading: without a cookie the request is refused as
    unauthenticated, with a token the store does not hold it is refused
    as expired, and otherwise the username of the stored payload comes
    back with its role. *)
Definition validate_session_two_cases (session_token : option string)
    (w : world E) : Prop :=
  let outcome := fst (validate_session E session_token w) in
  match session_token with
  | None =>
      outcome
      = Raised (HTTPException 401 "Not authenticated. Session token missing")
  | Some token =>
      match redis_db w !! token with
      | None => outcome = Raised (HTTPException 401 "Token has expired")
      | Some (payload, _) =>
          exists items u,
            json_loads E payload = Some (VDict items)
            /\ dict_get "username" items = Some (VStr u)
            /\ outcome = Returned {| username := u; role := get_role u |}
      end
  end.




(** The session a successful callback leaves in Redis and the response
    that carries its identifier. *)
Definition issued_payload (name : value) : string :=
  json_dumps E (VDict [("username", name); ("role", VNone)]).

Definition issued_world (w : world E) (session_id : string) (name : value)
  : world E :=
  {| redis_db := <[session_id := (issued_payload name, 15)]> (redis_db w);
     database := database w;
     calls := calls w ++ [RedisSetex session_id 15 (issued_payload name)] |}.

Definition issued_response (session_id : string) : response E :=
  RedirectResponse "/dashboard" 302
    [SetCookie "session_token" session_id true 15 "none" true].

End SessionReadings.

(** ** A concrete deployment *)

(** A small deployment on which the handlers run: an access controller
    over a role table, a database of a few bills, a token endpoint and a
    JWT verifier of known answers, and a JSON codec for session payloads. *)
Module Fixture.

(** Modelled from the spec: the Access Controller of [access_ctrl.py],
    which is not part of [src/app.py]; it "loads a static role to
    allowed-function mapping from configuration" and "answers allow/deny
    queries".  A request without a role is denied. *)
Definition AccessController : Type := list (string * list string).

Fixpoint allowed_functions (cfg : AccessController) (r : string) : list string :=
  match cfg with
  | [] => []
  | (r', fs) :: rest =>
      if String.eqb r' r then fs else allowed_functions rest r
  end.

Definition controller_is_allowed (cfg : AccessController)
    (r : option string) (function : string) : bool :=
  match r with
  | None => false
  | Some r => existsb (String.eqb function) (allowed_functions cfg r)
  end.

(** A role table keyed by the route paths. *)
Definition access_cfg : AccessController :=
  [ ("customer", ["/bill-retrieval"]);
    ("bank_cashier", ["/bill-payment"; "/bill-retrieval"]);
    ("disco_employee", ["/bill-adjustments"; "/bill-retrieval"]) ].

(** The database: bills with their amount due, payment statuses,
    payment methods, and the ledgers the stored functions write. *)
Record db : Type := {
  bills : list (Z * Z);
  statuses : list (Z * value);
  methods : list (Z * string);
  payments : list (Z * Z);
  adjustments : list (Z * Z)
}.

Fixpoint lookup_row {A : Type} (k : Z) (rows : list (Z * A)) : option A :=
  match rows with
  | [] => None
  | (k', a) :: rest => if Z.eqb k' k then Some a else lookup_row k rest
  end.

Definition process_payment (d : db) (bill_id : Z) (_ : datetime)
    (_ : Z) (amount : Z) : db * Z :=
  ({| bills := bills d;
      statuses := (bill_id, VStr "PAID") :: statuses d;
      methods := methods d;
      payments := payments d ++ [(bill_id, amount)];
      adjustments := adjustments d |}, 1).

Definition adjust_bill (d : db) (adjustment_id bill_id : Z) (_ : datetime)
    (_ _ : string) (_ _ : Z) (_ : string) : db * Z :=
  ({| bills := bills d;
      statuses := statuses d;
      methods := methods d;
      payments := payments d;
      adjustments := adjustments d ++ [(adjustment_id, bill_id)] |}, 1).

(** The JSON text of a session payload, for usernames that need no
    escaping: an opening up to the username and a closing after it. *)
Definition dquote : string := String (ascii_of_nat 34) "".

Definition payload_open : string :=
  "{" +:+ dquote +:+ "username" +:+ dquote +:+ ": " +:+ dquote.

Definition payload_close : string :=
  dquote +:+ ", " +:+ dquote +:+ "role" +:+ dquote +:+ ": null}".

Definition dumps (v : value) : string :=
  match v with
  | VDict [(k1, VStr u); (k2, VNone)] =>
      if String.eqb k1 "username" && String.eqb k2 "role"
      then payload_open +:+ u +:+ payload_close
      else "null"
  | _ => "null"
  end.

Definition loads (text : string) : option value :=
  let a := String.length payload_open in
  let b := String.length payload_close in
  if (a + b <=? String.length text)%nat
     && String.prefix payload_open text
     && PyStr.endswith text payload_close
  then Some (VDict [("username",
                     VStr (substring a (String.length text - a - b) text));
                    ("role", VNone)])
  else None.

(** The token endpoint answers the code [unreachable] with a network
    error, the code [empty] with a body without token, and any other
    code with a token that is the code itself. *)
Definition token_endpoint (code : string) : post_result :=
  if String.eqb code "unreachable" then RequestException "connection refused"
  else if String.eqb code "empty" then TokenInfo (VDict [])
  else TokenInfo (VDict [("token", VStr code)]).

(** The verifier accepts the tokens [signed:<name>] with subject
    [<name>], finds [stale] expired and rejects the rest. *)
Definition verify (token : value) : jwt_result :=
  match token with
  | VStr t =>
      if String.eqb t "stale" then ExpiredSignatureError
      else if String.prefix "signed:" t
      then Claims [("sub", VStr (substring 7 (String.length t - 7) t))]
      else InvalidTokenError
  | _ => InvalidTokenError
  end.

Definition env : Env := {|
  DB := db;
  number := Z;
  number_eqb := Z.eqb;
  bill_details := unit;
  is_allowed := controller_is_allowed access_cfg;
  json_loads := loads;
  json_dumps := dumps;
  jwt_decode := verify;
  requests_post := token_endpoint;
  select_bill := fun d k => match lookup_row k (bills d) with
                            | Some _ => Some k
                            | None => None
                            end;
  select_bill_amount := fun d k => match lookup_row k (bills d) with
                                   | Some due => Some (k, due)
                                   | None => None
                                   end;
  select_payment_status := fun d k => lookup_row k (statuses d);
  select_payment_method := fun d k => lookup_row k (methods d);
  fun_process_Payment := process_payment;
  fun_adjust_Bill := adjust_bill;
  get_bill_data := fun _ _ _ _ _ => inr "no data found"
|}.

(** Bill 7 is due for 1200 and unpaid, bill 8 is paid. *)
Definition db0 : db := {|
  bills := [(7, 1200); (8, 640)];
  statuses := [(7, VNone); (8, VStr "PAID")];
  methods := [(1, "Cash"); (2, "Card")];
  payments := [];
  adjustments := []
|}.

Definition noon : datetime := {|
  year := 2024; month := 3; day := 9;
  hour := 12; minute := 0; second := 0; microsecond := 0
|}.

Definition session_of (name : string) : string * Z :=
  (dumps (VDict [("username", VStr name); ("role", VNone)]), 15).

(** Redis holds a session of a customer, one of a utility employee, one
    of a user without role suffix, and one whose username is empty. *)
Definition redis0 : gmap string (string * Z) :=
  <["s-carol" := session_of "carol_u1"]>
  (<["s-dave" := session_of "dave_u3"]>
  (<["s-erin" := session_of "erin"]>
  (<["s-blank" := session_of ""]> ∅))).

Definition w0 : world env := Build_world env redis0 db0 [].

Definition get (p : string) (cookie : option string) : request env := {|
  method := GET; path := p; cookie_session_token := cookie;
  query_code := None; form := NoForm;
  uuid4 := "0f8fad5b-d9cb-469f-a165-70867728950e"; now := noon
|}.

Definition post (p : string) (code : option string) (f : form_data env)
  : request env := {|
  method := POST; path := p; cookie_session_token := None;
  query_code := code; form := f;
  uuid4 := "0f8fad5b-d9cb-469f-a165-70867728950e"; now := noon
|}.

End Fixture.

(** ** Further deployments *)

(** The paths served behind [Depends(validate_session)]. *)
Definition protected_paths : list string :=
  ["/dashboard"; "/bill-payment"; "/bill-retrieval"; "/bill-adjustments"].

(** The function each billing page asks the access controller about. *)
Definition page_function (p : string) : string :=
  if String.eqb p "/bill-payment" then "/bill-payment"
  else if String.eqb p "/bill-retrieval" then "/bill-retrieval"
  else "/bill-adjustment".

(** The template each billing page renders. *)
Definition page_template (p : string) : string :=
  if String.eqb p "/bill-payment" then "bill_payment.html"
  else if String.eqb p "/bill-retrieval" then "bill_retrieval.html"
  else "bill_adjustments.html".

Module Fixture2.

(** A store with an entry that is not JSON. *)
Definition w_garbled : world Fixture.env :=
  Build_world Fixture.env (<["s-garbled" := ("not json", 15)]> Fixture.redis0)
    Fixture.db0 [].

(** A database in which payment method 9 is unknown. *)
Definition pay (bill_id payment_method_id : Z) : request Fixture.env :=
  Fixture.post "/bill-payment" None
    (@PaymentForm Fixture.env bill_id 1200 payment_method_id).

Definition adjust (bill_id original_bill_amount : Z) : request Fixture.env :=
  Fixture.post "/bill-adjustments" None
    (@AdjustmentsForm Fixture.env bill_id "Noor" "SDO" original_bill_amount
       (-40) "meter fault").

(** A store with an entry whose payload is the empty string. *)
Definition w_hollow : world Fixture.env :=
  Build_world Fixture.env (<["s-hollow" := ("", 15)]> Fixture.redis0)
    Fixture.db0 [].

(** A database in which bill 9 has no row of payment details. *)
Definition w_unrecorded : world Fixture.env :=
  Build_world Fixture.env Fixture.redis0
    {| Fixture.bills := [(9, 500)]; Fixture.statuses := [];
       Fixture.methods := [(1, "Cash")]; Fixture.payments := [];
       Fixture.adjustments := [] |}
    [].

(** A deployment whose stored functions refuse amounts that are not
    positive (payments) or that are zero (adjustments), returning 0 and
    writing nothing. *)
Definition cautious : Env := {|
  DB := Fixture.db;
  number := Z;
  number_eqb := Z.eqb;
  bill_details := unit;
  is_allowed := Fixture.controller_is_allowed Fixture.access_cfg;
  json_loads := Fixture.loads;
  json_dumps := Fixture.dumps;
  jwt_decode := Fixture.verify;
  requests_post := Fixture.token_endpoint;
  select_bill := select_bill Fixture.env;
  select_bill_amount := select_bill_amount Fixture.env;
  select_payment_status := select_payment_status Fixture.env;
  select_payment_method := select_payment_method Fixture.env;
  fun_process_Payment := fun d bill_id date payment_method_id amount =>
    if Z.leb amount 0 then (d, 0)
    else Fixture.process_payment d bill_id date payment_method_id amount;
  fun_adjust_Bill := fun d adjustment_id bill_id date name designation
                         original adjustment reason =>
    if Z.eqb adjustment 0 then (d, 0)
    else Fixture.adjust_bill d adjustment_id bill_id date name designation
           original adjustment reason;
  get_bill_data := fun _ _ _ _ _ => inr "no data found"
|}.

Definition w_cautious : world cautious :=
  Build_world cautious Fixture.redis0 Fixture.db0 [].

End Fixture2.

(** * Properties *)

(** ** Sanity checks of the embedding *)

Example get_role_alice : get_role "alice_u1" = Some "customer".
Proof. reflexivity. Qed.

Example get_role_short : get_role "u2" = None.
Proof. reflexivity. Qed.

Example str_of_int_neg : PyStr.str_of_int (-52) = "-52".
Proof. reflexivity. Qed.

Example int_of_str_cat :
  PyStr.int_of_str (PyStr.str_of_int 17 +:+ PyStr.str_of_int 2024 +:+ PyStr.str_of_int 3)
  = Some 1720243.
Proof. reflexivity. Qed.

Example fixture_round_trip :
  Fixture.loads
    (Fixture.dumps (VDict [("username", VStr "carol_u1"); ("role", VNone)]))
  = Some (VDict [("username", VStr "carol_u1"); ("role", VNone)]).
Proof. vm_compute. reflexivity. Qed.

Example fixture_dashboard :
  fst (app Fixture.env (Fixture.get "/dashboard" (Some "s-carol")) Fixture.w0)
  = Reply (TemplateResponse "dashboard.html"
             (CtxUser {| username := "carol_u1"; role := Some "customer" |})).
Proof. vm_compute. reflexivity. Qed.

(** ** Suffixes *)

Module PyStrFacts.
Import PyStr.

Lemma substring_all (s : string) : substring 0 (String.length s) s = s.
Proof. induction s as [|c s IH]; simpl; [reflexivity | now rewrite IH]. Qed.

Lemma substring_skip (p s : string) (n : nat) :
  substring (String.length p) n (p +:+ s) = substring 0 n s.
Proof. induction p as [|c p IH]; simpl; [reflexivity | exact IH]. Qed.

Lemma length_app (p s : string) :
  String.length (p +:+ s) = (String.length p + String.length s)%nat.
Proof. induction p as [|c p IH]; simpl; [reflexivity | now rewrite IH]. Qed.

Lemma substring_split (s : string) (n : nat) :
  (n <= String.length s)%nat ->
  s = substring 0 n s +:+ substring n (String.length s - n) s.
Proof.
  revert n; induction s as [|c s IH]; intros [|n] Hn; simpl in *;
    try reflexivity; try lia.
  - now rewrite substring_all.
  - change (String c s
            = String c (substring 0 n s
                        +:+ substring n (String.length s - n) s)).
    f_equal. apply IH. lia.
Qed.

(** [endswith] decides whether [s] is some prefix followed by [suffix]. *)
Lemma endswith_spec (s suffix : string) :
  endswith s suffix = true <-> exists p, s = p +:+ suffix.
Proof.
  unfold endswith. rewrite andb_true_iff, Nat.leb_le, String.eqb_eq. split.
  - intros [Hle Hsub].
    exists (substring 0 (String.length s - String.length suffix) s).
    pose proof (substring_split s (String.length s - String.length suffix))
      as Hsplit.
    replace (String.length s - (String.length s - String.length suffix))%nat
      with (String.length suffix) in Hsplit by lia.
    rewrite Hsub in Hsplit. apply Hsplit. lia.
  - intros [p ->]. rewrite length_app. split; [lia|].
    replace (String.length p + String.length suffix - String.length suffix)%nat
      with (String.length p) by lia.
    now rewrite substring_skip, substring_all.
Qed.

Lemma endswith_false (s suffix : string) :
  endswith s suffix = false <-> ~ exists p, s = p +:+ suffix.
Proof.
  rewrite <- endswith_spec. destruct (endswith s suffix); split; intros H;
    try reflexivity; try discriminate; try (intros H'; discriminate).
  now contradict H.
Qed.

(** Behind any prefix, a tail as long as the suffix is compared as it is. *)
Lemma endswith_tail (p s suffix : string) :
  String.length s = String.length suffix ->
  endswith (p +:+ s) suffix = String.eqb s suffix.
Proof.
  intros Hlen. unfold endswith. rewrite length_app, <- Hlen.
  replace (String.length p + String.length s - String.length s)%nat
    with (String.length p) by lia.
  rewrite substring_skip, substring_all.
  replace (String.length s <=? String.length p + String.length s)%nat
    with true; [reflexivity|].
  symmetry. apply Nat.leb_le. lia.
Qed.

Lemma is_empty_true (s : string) : is_empty s = true <-> s = "".
Proof. destruct s; simpl; split; intros H; congruence. Qed.

Lemma is_empty_false (s : string) : is_empty s = false <-> s <> "".
Proof. destruct s; simpl; split; intros H; congruence. Qed.

End PyStrFacts.

(** ** Roles from suffixes *)

Lemma get_role_tail (p s : string) :
  String.length s = 3%nat -> get_role (p +:+ s) = get_role s.
Proof.
  intros Hlen. unfold get_role.
  rewrite !PyStrFacts.endswith_tail by exact Hlen.
  rewrite !(PyStrFacts.endswith_tail "" s) by exact Hlen.
  reflexivity.
Qed.

(** C6. The role of a username is read off its suffix alone: a name
    ending in [_u1] is a customer, one ending in [_u2] a bank cashier,
    one ending in [_u3] an employee of the utility (disco); and two names
    with the same last three characters have the same role. *)
Theorem get_role_by_suffix :
  (forall p, get_role (p +:+ "_u1") = Some "customer")
  /\ (forall p, get_role (p +:+ "_u2") = Some "bank_cashier")
  /\ (forall p, get_role (p +:+ "_u3") = Some "disco_employee")
  /\ (forall p q c1 c2 c3,
        get_role (p +:+ String c1 (String c2 (String c3 "")))
        = get_role (q +:+ String c1 (String c2 (String c3 "")))).
Proof.
  repeat split; intros.
  - now rewrite get_role_tail.
  - now rewrite get_role_tail.
  - now rewrite get_role_tail.
  - now rewrite !(get_role_tail _ (String c1 (String c2 (String c3 "")))).
Qed.

Lemma get_role_none (u : string) :
  (~ exists p, u = p +:+ "_u1") ->
  (~ exists p, u = p +:+ "_u2") ->
  (~ exists p, u = p +:+ "_u3") ->
  get_role u = None.
Proof.
  intros H1 H2 H3. unfold get_role.
  apply PyStrFacts.endswith_false in H1, H2, H3.
  now rewrite H1, H2, H3.
Qed.

(** ** Running the handlers *)

#[local] Ltac run :=
  repeat (progress unfold mbind, M_bind, mret, M_ret, raise, redis_get,
            redis_setex, redis_delete, access_ctrl_is_allowed,
            callfunc_process_Payment, callfunc_adjust_Bill, query,
            first_column, record, get_world, with_redis, with_database);
  cbn [fst snd redis_db database calls logged].

Section SessionFacts.

Context (E : Env).

Lemma missing_some (s : string) : s <> "" -> missing (Some s) = false.
Proof. intros H. now apply PyStrFacts.is_empty_false. Qed.

Lemma validate_session_no_cookie (session_token : option string) (w : world E) :
  missing session_token = true ->
  validate_session E session_token w
  = (Raised (HTTPException 401 "Not authenticated. Session token missing"), w).
Proof.
  destruct session_token as [token|]; cbn; intros H; [|reflexivity].
  unfold validate_session. now rewrite H.
Qed.

(** With a cookie, the store is read once before anything is decided. *)
Lemma validate_session_lookup (token : string) (w : world E) :
  token <> "" ->
  validate_session E (Some token) w
  = let w' := logged E w [RedisGet token] in
    let session_payload := fst <$> redis_db w !! token in
    if missing session_payload then
      (Raised (HTTPException 401 "Token has expired"), w')
    else
      match json_loads E (default "" session_payload) with
      | None => (Raised JSONDecodeError, w')
      | Some (VDict items) =>
          match dict_get "username" items with
          | None => (Raised (KeyError "username"), w')
          | Some name =>
              if negb (truthy name) then
                (Raised (HTTPException 401 "Username missing in session token"),
                 w')
              else
                match name with
                | VStr u =>
                    (Returned {| username := u; role := get_role u |}, w')
                | _ => (Raised AttributeError, w')
                end
          end
      | Some _ => (Raised TypeError, w')
      end.
Proof.
  intros Hne. apply PyStrFacts.is_empty_false in Hne.
  unfold validate_session. rewrite Hne. run.
  destruct (missing (fst <$> redis_db w !! token)); [reflexivity|].
  destruct (json_loads E _) as [[| | | | |items]|]; try reflexivity.
  destruct (dict_get "username" items) as [name|]; [|reflexivity].
  destruct (negb (truthy name)); [reflexivity|].
  destruct name; reflexivity.
Qed.

(** With a stored payload that decodes to a dictionary with a
    [username], that username decides. *)
Lemma validate_session_stored (token payload : string) (ttl : Z)
    (items : list (string * value)) (name : value) (w : world E) :
  token <> "" ->
  redis_db w !! token = Some (payload, ttl) ->
  payload <> "" ->
  json_loads E payload = Some (VDict items) ->
  dict_get "username" items = Some name ->
  validate_session E (Some token) w
  = (if negb (truthy name) then
       Raised (HTTPException 401 "Username missing in session token")
     else
       match name with
       | VStr u => Returned {| username := u; role := get_role u |}
       | _ => Raised AttributeError
       end,
     logged E w [RedisGet token]).
Proof.
  intros Htoken Hstored Hpayload Hloads Hget.
  rewrite (validate_session_lookup token w Htoken), Hstored.
  apply PyStrFacts.is_empty_false in Hpayload.
  cbn. rewrite Hpayload, Hloads, Hget.
  destruct (truthy name); cbn; [|reflexivity].
  destruct name; reflexivity.
Qed.

Lemma validate_session_returns (token payload : string) (ttl : Z)
    (items : list (string * value)) (u : string) (w : world E) :
  token <> "" ->
  redis_db w !! token = Some (payload, ttl) ->
  payload <> "" ->
  json_loads E payload = Some (VDict items) ->
  dict_get "username" items = Some (VStr u) ->
  u <> "" ->
  validate_session E (Some token) w
  = (Returned {| username := u; role := get_role u |},
     logged E w [RedisGet token]).
Proof.
  intros Htoken Hstored Hpayload Hloads Hget Hu.
  rewrite (validate_session_stored token payload ttl items (VStr u) w)
    by assumption.
  apply PyStrFacts.is_empty_false in Hu. cbn [truthy]. now rewrite Hu.
Qed.

End SessionFacts.

(** ** Session validation *)

(** C2, as the code has it.  [validate_session] resolves the session
    cookie in four cases: without a cookie (or with an empty one) it
    raises 401 "Not authenticated. Session token missing"; with a token
    the store does not hold it raises 401 "Token has expired"; with a
    stored payload whose username is missing (falsy) it raises 401
    "Username missing in session token"; and with a stored payload that
    carries a username it returns that username with the role derived
    from it.  Redis is read once in the last three cases and nothing else
    changes. *)
Theorem validate_session_cases (E : Env) (session_token : option string)
    (w : world E) :
  (missing session_token = true ->
   validate_session E session_token w
   = (Raised (HTTPException 401 "Not authenticated. Session token missing"),
      w))
  /\ (forall token,
        session_token = Some token -> token <> "" ->
        (redis_db w !! token = None ->
         validate_session E session_token w
         = (Raised (HTTPException 401 "Token has expired"),
            logged E w [RedisGet token]))
        /\ (forall payload ttl items name,
              redis_db w !! token = Some (payload, ttl) ->
              payload <> "" ->
              json_loads E payload = Some (VDict items) ->
              dict_get "username" items = Some name ->
              (truthy name = false ->
               validate_session E session_token w
               = (Raised
                    (HTTPException 401 "Username missing in session token"),
                  logged E w [RedisGet token]))
              /\ (forall u,
                    name = VStr u -> u <> "" ->
                    validate_session E session_token w
                    = (Returned {| username := u; role := get_role u |},
                       logged E w [RedisGet token])))).
Proof.
  split; [apply validate_session_no_cookie|].
  intros token -> Hne. split.
  - intros Hnone. rewrite (validate_session_lookup E token w Hne), Hnone.
    reflexivity.
  - intros payload ttl items name Hstored Hpayload Hloads Hget. split.
    + intros Hname.
      rewrite (validate_session_stored E token payload ttl items name w)
        by assumption.
      now rewrite Hname.
    + intros u -> Hu.
      now apply (validate_session_returns E token payload ttl items u w).
Qed.

Lemma validate_session_cases_witness :
  validate_session Fixture.env (Some "s-carol") Fixture.w0
  = (Returned {| username := "carol_u1"; role := get_role "carol_u1" |},
     logged Fixture.env Fixture.w0 [RedisGet "s-carol"]).
Proof.
  refine (proj2 (proj2 (proj2 (validate_session_cases Fixture.env
            (Some "s-carol") Fixture.w0) "s-carol" eq_refl _)
            (fst (Fixture.session_of "carol_u1")) 15
            [("username", VStr "carol_u1"); ("role", VNone)]
            (VStr "carol_u1") _ _ _ _) "carol_u1" eq_refl _).
  - discriminate.
  - vm_compute. reflexivity.
  - discriminate.
  - vm_compute. reflexivity.
  - reflexivity.
  - discriminate.
Defined.

(** C2, as stated, fails on a stored session whose username is empty:
    the cookie is there and the store holds its token, yet nothing is
    returned; the request is refused with "Username missing in session
    token". *)
Lemma validate_session_two_cases_fails :
  validate_session Fixture.env (Some "s-blank") Fixture.w0
  = (Raised (HTTPException 401 "Username missing in session token"),
     logged Fixture.env Fixture.w0 [RedisGet "s-blank"])
  /\ ~ validate_session_two_cases Fixture.env (Some "s-blank") Fixture.w0.
Proof.
  assert (Hrun :
    validate_session Fixture.env (Some "s-blank") Fixture.w0
    = (Raised (HTTPException 401 "Username missing in session token"),
       logged Fixture.env Fixture.w0 [RedisGet "s-blank"])).
  { vm_compute. reflexivity. }
  split; [exact Hrun|].
  unfold validate_session_two_cases. rewrite Hrun.
  change (Fixture.redis0 !! "s-blank") with (Some (Fixture.session_of "")).
  cbn [redis_db Fixture.w0 Fixture.session_of fst].
  intros (items & u & _ & _ & Hout). discriminate Hout.
Qed.

(** C8. A username that ends in none of [_u1], [_u2], [_u3] has no
    role, and a session that carries it is nevertheless valid:
    [validate_session] returns the username with the role [None]. *)
Theorem validate_session_without_role (E : Env) (u : string) :
  (~ exists p, u = p +:+ "_u1") ->
  (~ exists p, u = p +:+ "_u2") ->
  (~ exists p, u = p +:+ "_u3") ->
  get_role u = None
  /\ forall (token payload : string) (ttl : Z)
       (items : list (string * value)) (w : world E),
       u <> "" ->
       token <> "" ->
       redis_db w !! token = Some (payload, ttl) ->
       payload <> "" ->
       json_loads E payload = Some (VDict items) ->
       dict_get "username" items = Some (VStr u) ->
       validate_session E (Some token) w
       = (Returned {| username := u; role := None |},
          logged E w [RedisGet token]).
Proof.
  intros H1 H2 H3.
  pose proof (get_role_none u H1 H2 H3) as Hrole.
  split; [exact Hrole|].
  intros token payload ttl items w Hu Htoken Hstored Hpayload Hloads Hget.
  rewrite (validate_session_returns E token payload ttl items u w)
    by assumption.
  now rewrite Hrole.
Qed.

Lemma validate_session_without_role_witness :
  get_role "erin" = None
  /\ validate_session Fixture.env (Some "s-erin") Fixture.w0
     = (Returned {| username := "erin"; role := None |},
        logged Fixture.env Fixture.w0 [RedisGet "s-erin"]).
Proof.
  assert (Hnone : forall suffix,
            PyStr.endswith "erin" suffix = false ->
            ~ exists p, "erin" = p +:+ suffix).
  { intros suffix. apply PyStrFacts.endswith_false. }
  destruct (validate_session_without_role Fixture.env "erin"
              (Hnone "_u1" eq_refl) (Hnone "_u2" eq_refl)
              (Hnone "_u3" eq_refl)) as [Hrole Hvalid].
  split; [exact Hrole|].
  apply (Hvalid "s-erin" (fst (Fixture.session_of "erin")) 15
           [("username", VStr "erin"); ("role", VNone)]).
  - discriminate.
  - discriminate.
  - vm_compute. reflexivity.
  - discriminate.
  - vm_compute. reflexivity.
  - reflexivity.
Defined.

(** ** The authorization callback *)

Section CallbackFacts.

Context (E : Env).

(** With a code, the token endpoint is asked and its answer decides. *)
Lemma getAccessToken_exchange (c session_id : string) (w : world E) :
  c <> "" ->
  getAccessToken E (Some c) session_id w
  = match requests_post E c with
    | RequestException text =>
        (Raised (HTTPException 500 ("Error fetching token: " +:+ text)), w)
    | TokenInfo (VDict token_info) =>
        let jwt_token := default VNone (dict_get "token" token_info) in
        if negb (truthy jwt_token) then
          (Raised (HTTPException 401 "Failed to retrieve token."), w)
        else
          match jwt_decode E jwt_token with
          | ExpiredSignatureError =>
              (Raised (HTTPException 401 "Token has expired"), w)
          | InvalidTokenError =>
              (Raised (HTTPException 401 "Invalid Token"), w)
          | Claims decoded_token =>
              let name := default VNone (dict_get "sub" decoded_token) in
              if negb (truthy name) then
                (Raised (HTTPException 401 "Invalid Token: Missing Username"),
                 w)
              else
                (Returned (issued_response E session_id),
                 issued_world E w session_id name)
          end
    | TokenInfo _ => (Raised AttributeError, w)
    end.
Proof.
  intros Hc. unfold getAccessToken. rewrite (missing_some c Hc).
  change (default "" (Some c)) with c. destruct (requests_post E c) as [text|[| | | | |token_info]];
    try reflexivity.
  cbn zeta. destruct (negb (truthy _)); [reflexivity|].
  destruct (jwt_decode E _) as [| |decoded_token]; try reflexivity.
  destruct (negb (truthy _)); reflexivity.
Qed.

End CallbackFacts.

Lemma getAccessToken_no_code (E : Env) (code : option string)
    (session_id : string) (w : world E) :
  missing code = true ->
  getAccessToken E code session_id w
  = (Raised (HTTPException 400 "Authorization code not provided/missing."), w).
Proof. intros H. unfold getAccessToken. now rewrite H. Qed.

(** C3. [POST /callback]: without a code the handler raises 400; when
    the exchange yields no JWT, an expired one or an invalid one it
    raises 401; and when the JWT verifies and names a [sub], the handler
    stores a record with that username in Redis under the identifier
    drawn for this request, sets that identifier as the session cookie
    and answers with a 302 redirect to [/dashboard]. *)
Theorem getAccessToken_issues_session (E : Env) (code : option string)
    (session_id : string) (w : world E) :
  (missing code = true ->
   getAccessToken E code session_id w
   = (Raised (HTTPException 400 "Authorization code not provided/missing."),
      w))
  /\ (forall c token_info,
        code = Some c -> c <> "" ->
        requests_post E c = TokenInfo (VDict token_info) ->
        let jwt_token := default VNone (dict_get "token" token_info) in
        (truthy jwt_token = false ->
         getAccessToken E code session_id w
         = (Raised (HTTPException 401 "Failed to retrieve token."), w))
        /\ (truthy jwt_token = true ->
            jwt_decode E jwt_token = ExpiredSignatureError ->
            getAccessToken E code session_id w
            = (Raised (HTTPException 401 "Token has expired"), w))
        /\ (truthy jwt_token = true ->
            jwt_decode E jwt_token = InvalidTokenError ->
            getAccessToken E code session_id w
            = (Raised (HTTPException 401 "Invalid Token"), w))
        /\ (forall decoded_token name,
              truthy jwt_token = true ->
              jwt_decode E jwt_token = Claims decoded_token ->
              dict_get "sub" decoded_token = Some name ->
              truthy name = true ->
              exists w',
                getAccessToken E code session_id w
                = (Returned
                     (RedirectResponse "/dashboard" 302
                        [SetCookie "session_token" session_id true 15
                           "none" true]),
                   w')
                /\ redis_db w'
                   = <[session_id :=
                         (json_dumps E
                            (VDict [("username", name); ("role", VNone)]),
                          15)]> (redis_db w)
                /\ database w' = database w)).
Proof.
  split; [apply getAccessToken_no_code|].
  intros c token_info -> Hc Hpost jwt_token.
  rewrite (getAccessToken_exchange E c session_id w Hc), Hpost.
  subst jwt_token. cbn zeta. repeat split.
  - intros ->. reflexivity.
  - intros -> ->. reflexivity.
  - intros -> ->. reflexivity.
  - intros decoded_token name -> -> Hsub Hname.
    rewrite Hsub. cbn. rewrite Hname. cbn.
    exists (issued_world E w session_id name). repeat split.
Qed.

Lemma getAccessToken_issues_session_witness :
  exists w',
    getAccessToken Fixture.env (Some "signed:carol_u1") "sid-1" Fixture.w0
    = (Returned
         (RedirectResponse "/dashboard" 302
            [SetCookie "session_token" "sid-1" true 15 "none" true]),
       w')
    /\ redis_db w'
       = <["sid-1" :=
             (json_dumps Fixture.env
                (VDict [("username", VStr "carol_u1"); ("role", VNone)]),
              15)]> (redis_db Fixture.w0)
    /\ database w' = database Fixture.w0.
Proof.
  refine (proj2 (proj2 (proj2 (proj2 (getAccessToken_issues_session
            Fixture.env (Some "signed:carol_u1") "sid-1" Fixture.w0)
            "signed:carol_u1" [("token", VStr "signed:carol_u1")]
            eq_refl _ eq_refl)))
            [("sub", VStr "carol_u1")] (VStr "carol_u1")
            eq_refl eq_refl eq_refl eq_refl).
  discriminate.
Defined.



(** ** The exception handler *)

Lemma custom_http_exception_handler_expired (E : Env) :
  custom_http_exception_handler E 401 "Token has expired"
  = RedirectResponse "https://168.138.178.200" 302 [].
Proof. reflexivity. Qed.

Lemma custom_http_exception_handler_other (E : Env) (status_code : Z)
    (detail : string) :
  ~ (status_code = 401 /\ detail = "Token has expired") ->
  custom_http_exception_handler E status_code detail
  = JSONResponse status_code detail.
Proof.
  intros H. unfold custom_http_exception_handler.
  destruct (Z.eqb_spec status_code 401) as [H1|H1]; [|reflexivity].
  destruct (String.eqb_spec detail "Token has expired") as [H2|H2];
    [|reflexivity].
  contradict H. now split.
Qed.

(** C5. Whenever the handler of a request raises an [HTTPException],
    the client gets a 302 redirect to the welcome page if the exception
    is the 401 "Token has expired", and otherwise a JSON body with the
    status code and the detail of the exception. *)
Theorem http_exception_reply (E : Env) (req : request E) (w w' : world E)
    (ep : endpoint E) (handler : M E (response E)) (status_code : Z)
    (detail : string) :
  find_route E (method req) (path req) (routes E) = Some ep ->
  ep req = Some handler ->
  handler w = (Raised (HTTPException status_code detail), w') ->
  (status_code = 401 /\ detail = "Token has expired" ->
   app E req w
   = (Reply (RedirectResponse "https://168.138.178.200" 302 []), w'))
  /\ (~ (status_code = 401 /\ detail = "Token has expired") ->
      app E req w = (Reply (JSONResponse status_code detail), w')).
Proof.
  intros Hroute Hep Hrun. unfold app. rewrite Hroute, Hep, Hrun. split.
  - intros [-> ->]. reflexivity.
  - intros H. now rewrite custom_http_exception_handler_other.
Qed.

Lemma http_exception_reply_witness :
  app Fixture.env (Fixture.get "/dashboard" (Some "s-gone")) Fixture.w0
  = (Reply (RedirectResponse "https://168.138.178.200" 302 []),
     logged Fixture.env Fixture.w0 [RedisGet "s-gone"]).
Proof.
  refine (proj1 (http_exception_reply Fixture.env
            (Fixture.get "/dashboard" (Some "s-gone")) Fixture.w0
            (logged Fixture.env Fixture.w0 [RedisGet "s-gone"])
            (protected Fixture.env (get_dashboard Fixture.env))
            (u ← validate_session Fixture.env (Some "s-gone");
             get_dashboard Fixture.env u)
            401 "Token has expired" _ _ _) (conj eq_refl eq_refl)).
  - reflexivity.
  - reflexivity.
  - vm_compute. reflexivity.
Defined.

Example missing_cookie_is_json :
  fst (app Fixture.env (Fixture.get "/dashboard" None) Fixture.w0)
  = Reply (JSONResponse 401 "Not authenticated. Session token missing").
Proof. vm_compute. reflexivity. Qed.

Example stale_jwt_is_redirect :
  fst (app Fixture.env (Fixture.post "/callback" (Some "stale") NoForm)
         Fixture.w0)
  = Reply (RedirectResponse "https://168.138.178.200" 302 []).
Proof. vm_compute. reflexivity. Qed.

(** ** Sign-out *)

(** C10. [GET /sign-out] always answers with a 302 redirect that
    deletes the session cookie; the session is deleted from Redis when a
    session cookie came with the request, and Redis is left alone (not
    even called) when none did.  A cookie with an empty value counts as
    no cookie. *)
Theorem sign_out_spec (E : Env) (session_token : option string) (w : world E) :
  exists w',
    sign_out E session_token w
    = (Returned
         (RedirectResponse "https://168.138.178.200" 302
            [DeleteCookie "session_token"]),
       w')
    /\ database w' = database w
    /\ (missing session_token = true ->
        redis_db w' = redis_db w /\ calls w' = calls w)
    /\ (forall token,
          session_token = Some token -> token <> "" ->
          redis_db w' = delete token (redis_db w)
          /\ calls w' = (calls w ++ [RedisDelete token])%list).
Proof.
  unfold sign_out. destruct (missing session_token) eqn:Hmiss; run.
  - exists w. split; [reflexivity|]. split; [reflexivity|].
    split; [intros _; split; reflexivity|].
    intros token -> Hne.
    rewrite (missing_some token Hne) in Hmiss. discriminate.
  - eexists. split; [reflexivity|]. cbn. split; [reflexivity|].
    split; [discriminate|].
    intros token -> _. split; reflexivity.
Qed.

Lemma sign_out_spec_witness :
  exists w',
    sign_out Fixture.env (Some "s-carol") Fixture.w0
    = (Returned
         (RedirectResponse "https://168.138.178.200" 302
            [DeleteCookie "session_token"]),
       w')
    /\ redis_db w' = delete "s-carol" (redis_db Fixture.w0)
    /\ calls w' = (calls Fixture.w0 ++ [RedisDelete "s-carol"])%list.
Proof.
  destruct (sign_out_spec Fixture.env (Some "s-carol") Fixture.w0)
    as (w' & Hrun & _ & _ & Hdel).
  exists w'. split; [exact Hrun|].
  apply (Hdel "s-carol" eq_refl). discriminate.
Defined.

(** ** Adjustments *)

Section AdjustmentFacts.

Context (E : Env).

Variables (bill_id : Z) (officer_name officer_designation : string)
  (original_bill_amount adjustment_amount : number E)
  (adjustment_reason : string) (adjustment_DATE : datetime).




(** A bill without a payment status row: [fetchone()] is [None] and
    subscripting it raises, before anything is called. *)
Lemma post_bill_adjustments_no_status (w : world E) (row : Z)
    (amount_due : number E) :
  select_bill_amount E (database w) bill_id = Some (row, amount_due) ->
  number_eqb E original_bill_amount amount_due = true ->
  select_payment_status E (database w) bill_id = None ->
  post_bill_adjustments E bill_id officer_name officer_designation
    original_bill_amount adjustment_amount adjustment_reason adjustment_DATE
    w
  = (Raised TypeError, w).
Proof.
  intros Hbill Hamount Hstatus. unfold post_bill_adjustments. run.
  rewrite Hbill, Hamount. cbn. rewrite Hstatus. reflexivity.
Qed.

End AdjustmentFacts.




Example adjustment_recorded :
  post_bill_adjustments Fixture.env 7 "Noor" "SDO" 1200 (-40) "meter fault"
    Fixture.noon Fixture.w0
  = (Returned
       (TemplateResponse "adjustment_receipt.html"
          (CtxAdjustment
             (Build_adjustment_details Fixture.env 7 "Noor" "SDO" 1200 (-40)
                "meter fault" Fixture.noon 720243))),
     Build_world Fixture.env Fixture.redis0
       (fst (Fixture.adjust_bill Fixture.db0 720243 7 Fixture.noon "Noor"
               "SDO" 1200 (-40) "meter fault"))
       [@AdjustBill Fixture.env 720243 7 Fixture.noon "Noor" "SDO" 1200
          (-40) "meter fault"]).
Proof. vm_compute. reflexivity. Qed.

(** ** The access-control gate *)

Section GateFacts.

Context (E : Env).

(** The three pages ask the controller once, and a denied role gets a
    403 before anything is rendered. *)
Lemma get_bill_payment_gate (u : user) (w : world E) :
  get_bill_payment E u w
  = (if is_allowed E (role u) "/bill-payment"
     then Returned (TemplateResponse "bill_payment.html" (CtxUser u))
     else Raised (HTTPException 403 "Forbidden"),
     logged E w [IsAllowed (role u) "/bill-payment"]).
Proof.
  unfold get_bill_payment. run.
  destruct (is_allowed E (role u) "/bill-payment"); reflexivity.
Qed.

Lemma get_bill_retrieval_gate (u : user) (w : world E) :
  get_bill_retrieval E u w
  = (if is_allowed E (role u) "/bill-retrieval"
     then Returned (TemplateResponse "bill_retrieval.html" (CtxUser u))
     else Raised (HTTPException 403 "Forbidden"),
     logged E w [IsAllowed (role u) "/bill-retrieval"]).
Proof.
  unfold get_bill_retrieval. run.
  destruct (is_allowed E (role u) "/bill-retrieval"); reflexivity.
Qed.

Lemma get_bill_adjustment_gate (u : user) (w : world E) :
  get_bill_adjustment E u w
  = (if is_allowed E (role u) "/bill-adjustment"
     then Returned (TemplateResponse "bill_adjustments.html" (CtxUser u))
     else Raised (HTTPException 403 "Forbidden"),
     logged E w [IsAllowed (role u) "/bill-adjustment"]).
Proof.
  unfold get_bill_adjustment. run.
  destruct (is_allowed E (role u) "/bill-adjustment"); reflexivity.
Qed.

(** A protected page runs [validate_session] and then its handler. *)
Lemma app_protected (req : request E) (w w1 : world E) (u : user)
    (handler : user -> M E (response E)) :
  find_route E (method req) (path req) (routes E)
  = Some (protected E handler) ->
  validate_session E (cookie_session_token req) w = (Returned u, w1) ->
  app E req w
  = match handler u w1 with
    | (Returned r, w') => (Reply r, w')
    | (Raised (HTTPException status_code detail), w') =>
        (Reply (custom_http_exception_handler E status_code detail), w')
    | (Raised e, w') => (ServerError e, w')
    end.
Proof.
  intros Hroute Hsession. unfold app. rewrite Hroute.
  unfold protected. run. rewrite Hsession. reflexivity.
Qed.

End GateFacts.

(** C1, on the code.  [POST /bill-payment] is served without asking the
    access controller and without looking at the session: for a bill
    that exists, the payment function of the database is called whoever
    sends the request and whatever the controller would answer. *)
Theorem post_bill_payment_not_gated (E : Env) (req : request E) (w : world E)
    (bill_id : Z) (amount : number E) (payment_method_id row : Z) :
  method req = POST ->
  path req = "/bill-payment" ->
  form req = PaymentForm bill_id amount payment_method_id ->
  select_bill E (database w) bill_id = Some row ->
  calls (snd (app E req w))
  = (calls w ++ [ProcessPayment bill_id (now req) payment_method_id amount])%list
  /\ database (snd (app E req w))
     = fst (fun_process_Payment E (database w) bill_id (now req)
              payment_method_id amount).
Proof.
  intros Hmethod Hpath Hform Hbill. unfold app.
  rewrite Hmethod, Hpath.
  assert (Hroute :
    find_route E POST "/bill-payment" (routes E)
    = Some (fun req : request E =>
              match form req with
              | PaymentForm bill_id amount payment_method_id =>
                  Some (post_bill_payment E bill_id amount payment_method_id
                          (now req))
              | _ => None
              end)) by reflexivity.
  rewrite Hroute, Hform.
  unfold post_bill_payment. run. rewrite Hbill. run.
  destruct (fun_process_Payment E (database w) bill_id (now req)
              payment_method_id amount) as [db' status].
  cbn [fst]. destruct (Z.eqb status 1); cbn; [|split; reflexivity].
  destruct (select_payment_status E db' bill_id); cbn;
    [|split; reflexivity].
  destruct (select_payment_method E db' payment_method_id); cbn;
    split; reflexivity.
Qed.

Lemma post_bill_payment_not_gated_witness :
  calls (snd (app Fixture.env
                (Fixture.post "/bill-payment" None (@PaymentForm Fixture.env 7 1200 1))
                Fixture.w0))
  = [@ProcessPayment Fixture.env 7 Fixture.noon 1 1200]
  /\ database (snd (app Fixture.env
                      (Fixture.post "/bill-payment" None
                         (@PaymentForm Fixture.env 7 1200 1))
                      Fixture.w0))
     = fst (Fixture.process_payment Fixture.db0 7 Fixture.noon 1 1200).
Proof.
  apply (post_bill_payment_not_gated Fixture.env
           (Fixture.post "/bill-payment" None (@PaymentForm Fixture.env 7 1200 1))
           Fixture.w0 7 1200 1 7); reflexivity.
Defined.

(** The pages for payment and retrieval ask the controller about the
    path they are served under. *)
Lemma page_function_is_path (E : Env) (req : request E) (w w1 : world E)
    (u : user) :
  method req = GET ->
  path req = "/bill-payment" \/ path req = "/bill-retrieval" ->
  validate_session E (cookie_session_token req) w = (Returned u, w1) ->
  calls (snd (app E req w)) = (calls w1 ++ [IsAllowed (role u) (path req)])%list.
Proof.
  intros Hmethod [Hpath|Hpath] Hsession.
  - rewrite (app_protected E req w w1 u (get_bill_payment E));
      [|rewrite Hmethod, Hpath; reflexivity|exact Hsession].
    rewrite get_bill_payment_gate, Hpath.
    destruct (is_allowed E (role u) "/bill-payment"); reflexivity.
  - rewrite (app_protected E req w w1 u (get_bill_retrieval E));
      [|rewrite Hmethod, Hpath; reflexivity|exact Hsession].
    rewrite get_bill_retrieval_gate, Hpath.
    destruct (is_allowed E (role u) "/bill-retrieval"); reflexivity.
Qed.

(** C4, on the code.  The page served under [/bill-adjustments] asks the
    controller about the function [/bill-adjustment], which is not the
    path of the route. *)
Theorem adjustments_page_function (E : Env) (req : request E)
    (w w1 : world E) (u : user) :
  method req = GET ->
  path req = "/bill-adjustments" ->
  validate_session E (cookie_session_token req) w = (Returned u, w1) ->
  calls (snd (app E req w))
  = (calls w1 ++ [IsAllowed (role u) "/bill-adjustment"])%list
  /\ "/bill-adjustment" <> path req.
Proof.
  intros Hmethod Hpath Hsession. split.
  - rewrite (app_protected E req w w1 u (get_bill_adjustment E));
      [|rewrite Hmethod, Hpath; reflexivity|exact Hsession].
    rewrite get_bill_adjustment_gate.
    destruct (is_allowed E (role u) "/bill-adjustment"); reflexivity.
  - rewrite Hpath. discriminate.
Qed.

Lemma adjustments_page_function_witness :
  calls (snd (app Fixture.env
                (Fixture.get "/bill-adjustments" (Some "s-dave"))
                Fixture.w0))
  = (calls (logged Fixture.env Fixture.w0 [RedisGet "s-dave"])
     ++ [IsAllowed (Some "disco_employee") "/bill-adjustment"])%list
  /\ "/bill-adjustment"
     <> path (Fixture.get "/bill-adjustments" (Some "s-dave")).
Proof.
  apply (adjustments_page_function Fixture.env
           (Fixture.get "/bill-adjustments" (Some "s-dave")) Fixture.w0
           (logged Fixture.env Fixture.w0 [RedisGet "s-dave"])
           {| username := "dave_u3"; role := Some "disco_employee" |}).
  - reflexivity.
  - reflexivity.
  - vm_compute. reflexivity.
Defined.

(** Under a role table keyed by the route paths, the employee the table
    allows on [/bill-adjustments] is refused the page. *)
Example adjustments_page_refused :
  is_allowed Fixture.env (Some "disco_employee") "/bill-adjustments" = true
  /\ fst (app Fixture.env (Fixture.get "/bill-adjustments" (Some "s-dave"))
            Fixture.w0)
     = Reply (JSONResponse 403 "Forbidden").
Proof. split; vm_compute; reflexivity. Qed.

(** A page the controller denies is answered with 403 and nothing is
    rendered; a page it allows is rendered. *)
Example retrieval_page_allowed :
  fst (app Fixture.env (Fixture.get "/bill-retrieval" (Some "s-carol"))
         Fixture.w0)
  = Reply (TemplateResponse "bill_retrieval.html"
             (CtxUser {| username := "carol_u1"; role := Some "customer" |})).
Proof. vm_compute. reflexivity. Qed.

Example payment_page_denied :
  fst (app Fixture.env (Fixture.get "/bill-payment" (Some "s-carol"))
         Fixture.w0)
  = Reply (JSONResponse 403 "Forbidden").
Proof. vm_compute. reflexivity. Qed.

(** ** From the callback to the next request *)

(** A session the callback has just issued is accepted by
    [validate_session], provided the JSON library reads back what it
    wrote. *)
Lemma issued_session_validates (E : Env) (w : world E)
    (session_id u : string) :
  session_id <> "" ->
  u <> "" ->
  issued_payload E (VStr u) <> "" ->
  json_loads E (issued_payload E (VStr u))
  = Some (VDict [("username", VStr u); ("role", VNone)]) ->
  validate_session E (Some session_id) (issued_world E w session_id (VStr u))
  = (Returned {| username := u; role := get_role u |},
     logged E (issued_world E w session_id (VStr u)) [RedisGet session_id]).
Proof.
  intros Hid Hu Hpayload Hloads.
  apply (validate_session_returns E session_id (issued_payload E (VStr u)) 15
           [("username", VStr u); ("role", VNone)] u); try assumption.
  - cbn [issued_world redis_db]. apply lookup_insert_eq.
  - reflexivity.
Qed.

Example callback_then_dashboard :
  let w1 :=
    snd (app Fixture.env
           (Fixture.post "/callback" (Some "signed:bilal_u2") NoForm)
           Fixture.w0) in
  fst (app Fixture.env
         (Fixture.get "/dashboard"
            (Some "0f8fad5b-d9cb-469f-a165-70867728950e")) w1)
  = Reply (TemplateResponse "dashboard.html"
             (CtxUser {| username := "bilal_u2";
                         role := Some "bank_cashier" |})).
Proof. vm_compute. reflexivity. Qed.

(** The session lives for its 15 seconds and no longer: a request that
    comes later is told that the token has expired. *)
Lemma issued_session_expires (E : Env) (w : world E) (session_id : string)
    (name : value) (seconds : Z) :
  session_id <> "" ->
  15 <= seconds ->
  validate_session E (Some session_id)
    (elapse E seconds (issued_world E w session_id name))
  = (Raised (HTTPException 401 "Token has expired"),
     logged E (elapse E seconds (issued_world E w session_id name))
       [RedisGet session_id]).
Proof.
  intros Hid Hlate. rewrite (validate_session_lookup E _ _ Hid).
  cbn [elapse issued_world redis_db]. unfold redis_elapse.
  rewrite lookup_omap, lookup_insert_eq. cbn.
  destruct (Z.ltb_spec seconds 15) as [Hlt|_]; [lia|]. reflexivity.
Qed.

Example late_request_is_redirected :
  let w1 :=
    snd (app Fixture.env
           (Fixture.post "/callback" (Some "signed:bilal_u2") NoForm)
           Fixture.w0) in
  fst (app Fixture.env
         (Fixture.get "/dashboard"
            (Some "0f8fad5b-d9cb-469f-a165-70867728950e"))
         (elapse Fixture.env 15 w1))
  = Reply (RedirectResponse "https://168.138.178.200" 302 []).
Proof. vm_compute. reflexivity. Qed.

(** * Further properties of the handlers *)

(** ** What session validation reads and what it leaves alone *)

(** [validate_session] only reads: Redis and the database are as they
    were; without a cookie, or with an empty one, no call is made at
    all, and with a token exactly one call is made, a read of that token
    in Redis. *)
Theorem validate_session_reads_only (E : Env) (session_token : option string)
    (w : world E) :
  let w' := snd (validate_session E session_token w) in
  redis_db w' = redis_db w
  /\ database w' = database w
  /\ calls w'
     = if missing session_token then calls w
       else (calls w ++ [RedisGet (default "" session_token)])%list.
Proof.
  cbn zeta. destruct (missing session_token) eqn:Hmiss.
  - rewrite (validate_session_no_cookie E session_token w Hmiss).
    repeat split.
  - destruct session_token as [token|]; [|discriminate Hmiss].
    apply PyStrFacts.is_empty_false in Hmiss.
    rewrite (validate_session_lookup E token w Hmiss). cbn zeta.
    assert (Hw : forall r : result user,
              redis_db (snd (r, logged E w [RedisGet token])) = redis_db w
              /\ database (snd (r, logged E w [RedisGet token])) = database w
              /\ calls (snd (r, logged E w [RedisGet token]))
                 = (calls w ++ [RedisGet (default "" (Some token))])%list).
    { intros r. repeat split. }
    destruct (missing (fst <$> redis_db w !! token)); [apply Hw|].
    destruct (json_loads E _) as [[| | | | |items]|]; try apply Hw.
    destruct (dict_get "username" items) as [name|]; [|apply Hw].
    destruct (negb (truthy name)); [apply Hw|].
    destruct name; apply Hw.
Qed.

(** Whoever [validate_session] lets through has a non-empty cookie whose
    token Redis holds, with a payload that decodes to a dictionary whose
    [username] is the non-empty string returned; the role is the one
    [get_role] derives from it. *)
Theorem validate_session_sound (E : Env) (session_token : option string)
    (w w' : world E) (u : user) :
  validate_session E session_token w = (Returned u, w') ->
  exists token payload ttl items,
    session_token = Some token
    /\ token <> ""
    /\ redis_db w !! token = Some (payload, ttl)
    /\ payload <> ""
    /\ json_loads E payload = Some (VDict items)
    /\ dict_get "username" items = Some (VStr (username u))
    /\ username u <> ""
    /\ role u = get_role (username u)
    /\ w' = logged E w [RedisGet token].
Proof.
  destruct (missing session_token) eqn:Hmiss.
  - rewrite (validate_session_no_cookie E session_token w Hmiss).
    discriminate.
  - destruct session_token as [token|]; [|discriminate Hmiss].
    apply PyStrFacts.is_empty_false in Hmiss.
    rewrite (validate_session_lookup E token w Hmiss). cbn zeta.
    destruct (redis_db w !! token) as [[payload ttl]|] eqn:Hstored;
      [|discriminate].
    cbn. destruct (PyStr.is_empty payload) eqn:Hpayload; [discriminate|].
    destruct (json_loads E payload) as [[| | | | |items]|] eqn:Hloads;
      try discriminate.
    destruct (dict_get "username" items) as [name|] eqn:Hget;
      [|discriminate].
    destruct (truthy name) eqn:Hname; cbn; [|discriminate].
    destruct name as [| | |s| |]; try discriminate.
    intros [= <- <-]. exists token, payload, ttl, items.
    cbn in Hname. apply negb_true_iff in Hname.
    apply PyStrFacts.is_empty_false in Hname, Hpayload.
    repeat split; assumption.
Qed.

Lemma validate_session_sound_witness :
  exists token payload ttl items,
    Some "s-carol" = Some token
    /\ token <> ""
    /\ redis_db Fixture.w0 !! token = Some (payload, ttl)
    /\ payload <> ""
    /\ json_loads Fixture.env payload = Some (VDict items)
    /\ dict_get "username" items = Some (VStr "carol_u1")
    /\ "carol_u1" <> ""
    /\ Some "customer" = get_role "carol_u1"
    /\ logged Fixture.env Fixture.w0 [RedisGet "s-carol"]
       = logged Fixture.env Fixture.w0 [RedisGet token].
Proof.
  apply (validate_session_sound Fixture.env (Some "s-carol") Fixture.w0
           (logged Fixture.env Fixture.w0 [RedisGet "s-carol"])
           {| username := "carol_u1"; role := Some "customer" |}).
  vm_compute. reflexivity.
Defined.

(** The outcome of validation depends on the store only through the
    entry of the cookie's token. *)
Lemma validate_session_local (E : Env) (session_token : option string)
    (w1 w2 : world E) :
  (forall token, session_token = Some token ->
                 redis_db w1 !! token = redis_db w2 !! token) ->
  fst (validate_session E session_token w1)
  = fst (validate_session E session_token w2).
Proof.
  intros Hsame. destruct (missing session_token) eqn:Hmiss.
  - now rewrite !(validate_session_no_cookie E session_token _ Hmiss).
  - destruct session_token as [token|]; [|discriminate Hmiss].
    apply PyStrFacts.is_empty_false in Hmiss.
    rewrite !(validate_session_lookup E token _ Hmiss). cbn zeta.
    rewrite (Hsame token eq_refl).
    destruct (missing (fst <$> redis_db w2 !! token)); [reflexivity|].
    destruct (json_loads E _) as [[| | | | |items]|]; try reflexivity.
    destruct (dict_get "username" items) as [name|]; [|reflexivity].
    destruct (negb (truthy name)); [reflexivity|].
    destruct name; reflexivity.
Qed.

(** ** Protected routes *)

Lemma protected_route (E : Env) (req : request E) :
  method req = GET ->
  In (path req) protected_paths ->
  exists handler,
    find_route E (method req) (path req) (routes E)
    = Some (protected E handler)
    /\ (path req = "/dashboard" -> handler = get_dashboard E)
    /\ (path req = "/bill-payment" -> handler = get_bill_payment E)
    /\ (path req = "/bill-retrieval" -> handler = get_bill_retrieval E)
    /\ (path req = "/bill-adjustments" -> handler = get_bill_adjustment E).
Proof.
  intros -> [<-|[<-|[<-|[<-|[]]]]].
  - exists (get_dashboard E). repeat split; discriminate.
  - exists (get_bill_payment E). repeat split; discriminate.
  - exists (get_bill_retrieval E). repeat split; discriminate.
  - exists (get_bill_adjustment E). repeat split; discriminate.
Qed.

(** When the dependency raises, the handler of the page never runs. *)
Lemma app_protected_raised (E : Env) (req : request E) (w w1 : world E)
    (e : exn) :
  method req = GET ->
  In (path req) protected_paths ->
  validate_session E (cookie_session_token req) w = (Raised e, w1) ->
  app E req w
  = (match e with
     | HTTPException status_code detail =>
         Reply (custom_http_exception_handler E status_code detail)
     | _ => ServerError e
     end, w1).
Proof.
  intros Hmethod Hpath Hsession.
  destruct (protected_route E req Hmethod Hpath) as (handler & Hroute & _).
  unfold app. rewrite Hroute. unfold protected. run. rewrite Hsession.
  destruct e; reflexivity.
Qed.

(** Without a session cookie no protected page is served: the client
    gets the JSON error 401 "Not authenticated. Session token missing",
    and neither Redis nor the access controller nor the database is
    touched. *)
Theorem protected_needs_cookie (E : Env) (req : request E) (w : world E) :
  method req = GET ->
  In (path req) protected_paths ->
  missing (cookie_session_token req) = true ->
  app E req w
  = (Reply (JSONResponse 401 "Not authenticated. Session token missing"), w).
Proof.
  intros Hmethod Hpath Hmiss.
  now rewrite (app_protected_raised E req w w _ Hmethod Hpath
                 (validate_session_no_cookie E _ w Hmiss)).
Qed.

Lemma protected_needs_cookie_witness :
  app Fixture.env (Fixture.get "/bill-payment" None) Fixture.w0
  = (Reply (JSONResponse 401 "Not authenticated. Session token missing"),
     Fixture.w0).
Proof.
  apply (protected_needs_cookie Fixture.env
           (Fixture.get "/bill-payment" None) Fixture.w0).
  - reflexivity.
  - right. left. reflexivity.
  - reflexivity.
Defined.

(** With a token that Redis does not hold, every protected page answers
    with the redirect to the welcome page; Redis was read once and the
    access controller was not asked. *)
Theorem protected_unknown_token (E : Env) (req : request E) (w : world E)
    (token : string) :
  method req = GET ->
  In (path req) protected_paths ->
  cookie_session_token req = Some token ->
  token <> "" ->
  redis_db w !! token = None ->
  app E req w
  = (Reply (RedirectResponse "https://168.138.178.200" 302 []),
     logged E w [RedisGet token]).
Proof.
  intros Hmethod Hpath Hcookie Htoken Hnone.
  rewrite (app_protected_raised E req w (logged E w [RedisGet token])
             (HTTPException 401 "Token has expired") Hmethod Hpath);
    [reflexivity|].
  rewrite Hcookie, (validate_session_lookup E token w Htoken), Hnone.
  reflexivity.
Qed.

Lemma protected_unknown_token_witness :
  app Fixture.env (Fixture.get "/bill-adjustments" (Some "s-gone"))
    Fixture.w0
  = (Reply (RedirectResponse "https://168.138.178.200" 302 []),
     logged Fixture.env Fixture.w0 [RedisGet "s-gone"]).
Proof.
  apply (protected_unknown_token Fixture.env
           (Fixture.get "/bill-adjustments" (Some "s-gone")) Fixture.w0
           "s-gone").
  - reflexivity.
  - right. right. right. left. reflexivity.
  - reflexivity.
  - discriminate.
  - vm_compute. reflexivity.
Defined.

(** A stored payload that is not the JSON of a dictionary with a string
    [username] is not refused with a 401: decoding it raises, nothing
    catches the exception, and the client gets a server error. *)
Theorem protected_malformed_payload (E : Env) (req : request E)
    (w : world E) (token payload : string) (ttl : Z) :
  method req = GET ->
  In (path req) protected_paths ->
  cookie_session_token req = Some token ->
  token <> "" ->
  redis_db w !! token = Some (payload, ttl) ->
  payload <> "" ->
  (json_loads E payload = None ->
   fst (app E req w) = ServerError JSONDecodeError)
  /\ (forall v,
        json_loads E payload = Some v ->
        (forall items, v <> VDict items) ->
        fst (app E req w) = ServerError TypeError)
  /\ (forall items,
        json_loads E payload = Some (VDict items) ->
        dict_get "username" items = None ->
        fst (app E req w) = ServerError (KeyError "username"))
  /\ (forall items name,
        json_loads E payload = Some (VDict items) ->
        dict_get "username" items = Some name ->
        truthy name = true ->
        (forall u, name <> VStr u) ->
        fst (app E req w) = ServerError AttributeError).
Proof.
  intros Hmethod Hpath Hcookie Htoken Hstored Hpayload.
  apply PyStrFacts.is_empty_false in Hpayload.
  assert (Hrun : forall e,
            validate_session E (cookie_session_token req) w
            = (Raised e, logged E w [RedisGet token]) ->
            fst (app E req w)
            = match e with
              | HTTPException status_code detail =>
                  Reply (custom_http_exception_handler E status_code detail)
              | _ => ServerError e
              end).
  { intros e He.
    now rewrite (app_protected_raised E req w _ e Hmethod Hpath He). }
  rewrite Hcookie, (validate_session_lookup E token w Htoken), Hstored in Hrun.
  cbn in Hrun. rewrite Hpayload in Hrun.
  repeat split.
  - intros Hloads. rewrite Hloads in Hrun. now apply (Hrun JSONDecodeError).
  - intros v Hloads Hnodict. rewrite Hloads in Hrun.
    destruct v as [| | | | |items];
      try (now apply (Hrun TypeError)).
    exfalso. now apply (Hnodict items).
  - intros items Hloads Hget. rewrite Hloads, Hget in Hrun.
    now apply (Hrun (KeyError "username")).
  - intros items name Hloads Hget Hname Hnostr.
    rewrite Hloads, Hget, Hname in Hrun. cbn in Hrun.
    destruct name as [| | |u| |];
      try (now apply (Hrun AttributeError)).
    exfalso. now apply (Hnostr u).
Qed.

Lemma protected_malformed_payload_witness :
  fst (app Fixture.env (Fixture.get "/dashboard" (Some "s-garbled"))
         Fixture2.w_garbled)
  = ServerError JSONDecodeError.
Proof.
  refine (proj1 (protected_malformed_payload Fixture.env
            (Fixture.get "/dashboard" (Some "s-garbled")) Fixture2.w_garbled
            "s-garbled" "not json" 15 _ _ _ _ _ _) _).
  - reflexivity.
  - left. reflexivity.
  - reflexivity.
  - discriminate.
  - vm_compute. reflexivity.
  - discriminate.
  - vm_compute. reflexivity.
Defined.

(** ** Pages behind the access controller *)

(** A billing page, for a user the dependency let through: the
    controller is asked once, about the function of the page and the
    role of the user; a role it allows gets the page, a role it denies
    gets the JSON error 403 "Forbidden"; Redis and the database are not
    touched by the page. *)
Theorem billing_page_gate (E : Env) (req : request E) (w w1 : world E)
    (u : user) :
  method req = GET ->
  In (path req) ["/bill-payment"; "/bill-retrieval"; "/bill-adjustments"] ->
  validate_session E (cookie_session_token req) w = (Returned u, w1) ->
  app E req w
  = (if is_allowed E (role u) (page_function (path req))
     then Reply (TemplateResponse (page_template (path req)) (CtxUser u))
     else Reply (JSONResponse 403 "Forbidden"),
     logged E w1 [IsAllowed (role u) (page_function (path req))]).
Proof.
  intros Hmethod Hpath Hsession.
  destruct Hpath as [Hpath|[Hpath|[Hpath|[]]]]; symmetry in Hpath.
  - rewrite (app_protected E req w w1 u (get_bill_payment E));
      [|rewrite Hmethod, Hpath; reflexivity|exact Hsession].
    rewrite get_bill_payment_gate, Hpath.
    change (page_function "/bill-payment") with "/bill-payment".
    destruct (is_allowed E (role u) "/bill-payment"); reflexivity.
  - rewrite (app_protected E req w w1 u (get_bill_retrieval E));
      [|rewrite Hmethod, Hpath; reflexivity|exact Hsession].
    rewrite get_bill_retrieval_gate, Hpath.
    change (page_function "/bill-retrieval") with "/bill-retrieval".
    destruct (is_allowed E (role u) "/bill-retrieval"); reflexivity.
  - rewrite (app_protected E req w w1 u (get_bill_adjustment E));
      [|rewrite Hmethod, Hpath; reflexivity|exact Hsession].
    rewrite get_bill_adjustment_gate, Hpath.
    change (page_function "/bill-adjustments") with "/bill-adjustment".
    destruct (is_allowed E (role u) "/bill-adjustment"); reflexivity.
Qed.

Lemma billing_page_gate_witness :
  app Fixture.env (Fixture.get "/bill-payment" (Some "s-carol")) Fixture.w0
  = (Reply (JSONResponse 403 "Forbidden"),
     logged Fixture.env (logged Fixture.env Fixture.w0 [RedisGet "s-carol"])
       [IsAllowed (Some "customer") "/bill-payment"]).
Proof.
  refine (billing_page_gate Fixture.env
            (Fixture.get "/bill-payment" (Some "s-carol")) Fixture.w0
            (logged Fixture.env Fixture.w0 [RedisGet "s-carol"])
            {| username := "carol_u1"; role := Some "customer" |} _ _ _).
  - reflexivity.
  - left. reflexivity.
  - vm_compute. reflexivity.
Defined.

(** The dashboard is served to every user the dependency lets through,
    whatever the role, also without one: the access controller is not
    asked. *)
Theorem dashboard_for_any_role (E : Env) (req : request E) (w w1 : world E)
    (u : user) :
  method req = GET ->
  path req = "/dashboard" ->
  validate_session E (cookie_session_token req) w = (Returned u, w1) ->
  app E req w = (Reply (TemplateResponse "dashboard.html" (CtxUser u)), w1).
Proof.
  intros Hmethod Hpath Hsession.
  rewrite (app_protected E req w w1 u (get_dashboard E));
    [reflexivity|rewrite Hmethod, Hpath; reflexivity|exact Hsession].
Qed.

Lemma dashboard_for_any_role_witness :
  app Fixture.env (Fixture.get "/dashboard" (Some "s-erin")) Fixture.w0
  = (Reply (TemplateResponse "dashboard.html"
              (CtxUser {| username := "erin"; role := None |})),
     logged Fixture.env Fixture.w0 [RedisGet "s-erin"]).
Proof.
  apply (dashboard_for_any_role Fixture.env
           (Fixture.get "/dashboard" (Some "s-erin")) Fixture.w0).
  - reflexivity.
  - reflexivity.
  - vm_compute. reflexivity.
Defined.

(** ** Sign-out and the sessions in Redis *)

Lemma sign_out_run (E : Env) (session_token : option string) (w : world E) :
  sign_out E session_token w
  = (Returned (RedirectResponse "https://168.138.178.200" 302
                 [DeleteCookie "session_token"]),
     if missing session_token then w
     else {| redis_db := delete (default "" session_token) (redis_db w);
             database := database w;
             calls := calls w ++ [RedisDelete (default "" session_token)] |}).
Proof.
  unfold sign_out. destruct (missing session_token); run; reflexivity.
Qed.

Lemma app_sign_out (E : Env) (req : request E) (w : world E) :
  method req = GET ->
  path req = "/sign-out" ->
  app E req w
  = (Reply (RedirectResponse "https://168.138.178.200" 302
              [DeleteCookie "session_token"]),
     snd (sign_out E (cookie_session_token req) w)).
Proof.
  intros Hmethod Hpath. unfold app. rewrite Hmethod, Hpath.
  change (find_route E GET "/sign-out" (routes E))
    with (Some (fun req : request E =>
                  Some (sign_out E (cookie_session_token req)))).
  cbn beta iota. rewrite sign_out_run. reflexivity.
Qed.

(** After a sign-out the session is over: the next request to a
    protected page with the same cookie is answered with the redirect to
    the welcome page. *)
Theorem sign_out_ends_session (E : Env) (req1 req2 : request E)
    (w : world E) (token : string) :
  method req1 = GET ->
  path req1 = "/sign-out" ->
  cookie_session_token req1 = Some token ->
  token <> "" ->
  method req2 = GET ->
  In (path req2) protected_paths ->
  cookie_session_token req2 = Some token ->
  fst (app E req2 (snd (app E req1 w)))
  = Reply (RedirectResponse "https://168.138.178.200" 302 []).
Proof.
  intros Hm1 Hp1 Hc1 Htoken Hm2 Hp2 Hc2.
  rewrite (app_sign_out E req1 w Hm1 Hp1), Hc1, sign_out_run.
  rewrite (missing_some token Htoken). cbn [snd default from_option id].
  erewrite (app_protected_raised E req2 _ _
              (HTTPException 401 "Token has expired") Hm2 Hp2);
    [reflexivity|].
  rewrite Hc2, (validate_session_lookup E token _ Htoken).
  cbn [redis_db]. rewrite lookup_delete_eq. reflexivity.
Qed.

Lemma sign_out_ends_session_witness :
  fst (app Fixture.env (Fixture.get "/dashboard" (Some "s-carol"))
         (snd (app Fixture.env (Fixture.get "/sign-out" (Some "s-carol"))
                 Fixture.w0)))
  = Reply (RedirectResponse "https://168.138.178.200" 302 []).
Proof.
  apply (sign_out_ends_session Fixture.env
           (Fixture.get "/sign-out" (Some "s-carol"))
           (Fixture.get "/dashboard" (Some "s-carol")) Fixture.w0 "s-carol").
  - reflexivity.
  - reflexivity.
  - reflexivity.
  - discriminate.
  - reflexivity.
  - left. reflexivity.
  - reflexivity.
Defined.

(** A sign-out ends one session only: for any other cookie, validation
    gives what it gave before. *)
Theorem sign_out_keeps_other_sessions (E : Env)
    (session_token : option string) (other : string) (w : world E) :
  session_token <> Some other ->
  fst (validate_session E (Some other) (snd (sign_out E session_token w)))
  = fst (validate_session E (Some other) w).
Proof.
  intros Hother. apply validate_session_local. intros token [= <-].
  rewrite sign_out_run. cbn [snd].
  destruct (missing session_token) eqn:Hmiss; [reflexivity|].
  destruct session_token as [token|]; [|discriminate Hmiss].
  cbn [redis_db default from_option id]. apply lookup_delete_ne. congruence.
Qed.

Lemma sign_out_keeps_other_sessions_witness :
  fst (validate_session Fixture.env (Some "s-dave")
         (snd (sign_out Fixture.env (Some "s-carol") Fixture.w0)))
  = fst (validate_session Fixture.env (Some "s-dave") Fixture.w0).
Proof.
  apply (sign_out_keeps_other_sessions Fixture.env (Some "s-carol") "s-dave"
           Fixture.w0).
  discriminate.
Defined.

(** ** What the callback does to Redis *)

Lemma getAccessToken_world (E : Env) (code : option string)
    (session_id : string) (w : world E) :
  (exists e, getAccessToken E code session_id w = (Raised e, w)
             /\ (e = AttributeError
                 \/ exists status_code detail,
                      e = HTTPException status_code detail
                      /\ (status_code = 400 \/ status_code = 401
                          \/ status_code = 500)))
  \/ (exists name,
        truthy name = true
        /\ getAccessToken E code session_id w
           = (Returned (issued_response E session_id),
              issued_world E w session_id name)).
Proof.
  destruct (missing code) eqn:Hcode.
  - left. eexists. split; [now apply getAccessToken_no_code|].
    right. eexists _, _. split; [reflexivity|]. now left.
  - destruct code as [c|]; [|discriminate Hcode].
    apply PyStrFacts.is_empty_false in Hcode.
    rewrite (getAccessToken_exchange E c session_id w Hcode).
    destruct (requests_post E c) as [text|[| | | | |token_info]];
      try (left; eexists; split; [reflexivity|]; now left).
    + left. eexists. split; [reflexivity|]. right. eexists _, _.
      split; [reflexivity|]. now right; right.
    + cbn zeta. destruct (negb (truthy _)).
      { left. eexists. split; [reflexivity|]. right. eexists _, _.
        split; [reflexivity|]. now right; left. }
      destruct (jwt_decode E _) as [| |decoded_token].
      * left. eexists. split; [reflexivity|]. right. eexists _, _.
        split; [reflexivity|]. now right; left.
      * left. eexists. split; [reflexivity|]. right. eexists _, _.
        split; [reflexivity|]. now right; left.
      * destruct (truthy (default VNone (dict_get "sub" decoded_token)))
          eqn:Hname; cbn [negb].
        { right. eexists. split; [exact Hname|reflexivity]. }
        left. eexists. split; [reflexivity|]. right. eexists _, _.
        split; [reflexivity|]. now right; left.
Qed.

(** A callback that fails issues nothing: whatever it raises, Redis, the
    database and the log of calls are as before; and it raises only the
    HTTP errors 400, 401 and 500, or the [AttributeError] of a token
    response that is not a dictionary. *)
Theorem getAccessToken_failure (E : Env) (code : option string)
    (session_id : string) (w w' : world E) (e : exn) :
  getAccessToken E code session_id w = (Raised e, w') ->
  w' = w
  /\ (e = AttributeError
      \/ exists status_code detail,
           e = HTTPException status_code detail
           /\ (status_code = 400 \/ status_code = 401 \/ status_code = 500)).
Proof.
  destruct (getAccessToken_world E code session_id w)
    as [(e0 & -> & He)|(name & _ & ->)]; [|discriminate].
  intros [= <- <-]. now split.
Qed.

Lemma getAccessToken_failure_witness :
  Fixture.w0 = Fixture.w0
  /\ (HTTPException 500 "Error fetching token: connection refused"
      = AttributeError
      \/ exists status_code detail,
           HTTPException 500 "Error fetching token: connection refused"
           = HTTPException status_code detail
           /\ (status_code = 400 \/ status_code = 401 \/ status_code = 500)).
Proof.
  apply (getAccessToken_failure Fixture.env (Some "unreachable") "sid-1"
           Fixture.w0 Fixture.w0).
  vm_compute. reflexivity.
Defined.

(** Issuing a session leaves the others alone: for any cookie other than
    the new identifier, validation gives what it gave before the
    callback, whether the callback succeeded or not. *)
Theorem getAccessToken_keeps_other_sessions (E : Env) (code : option string)
    (session_id other : string) (w : world E) :
  other <> session_id ->
  fst (validate_session E (Some other)
         (snd (getAccessToken E code session_id w)))
  = fst (validate_session E (Some other) w).
Proof.
  intros Hother. apply validate_session_local. intros token [= <-].
  destruct (getAccessToken_world E code session_id w)
    as [(e0 & -> & _)|(name & _ & ->)]; [reflexivity|].
  cbn [snd issued_world redis_db]. apply lookup_insert_ne. congruence.
Qed.

Lemma getAccessToken_keeps_other_sessions_witness :
  fst (validate_session Fixture.env (Some "s-carol")
         (snd (getAccessToken Fixture.env (Some "signed:bilal_u2") "sid-1"
                 Fixture.w0)))
  = fst (validate_session Fixture.env (Some "s-carol") Fixture.w0).
Proof.
  apply (getAccessToken_keeps_other_sessions Fixture.env
           (Some "signed:bilal_u2") "sid-1" "s-carol" Fixture.w0).
  discriminate.
Defined.

(** A JWT that verifies but names no subject (no [sub], or a falsy one)
    is refused with 401 "Invalid Token: Missing Username", and no
    session is written. *)
Theorem getAccessToken_missing_sub (E : Env) (c session_id : string)
    (w : world E) (token_info decoded_token : list (string * value)) :
  c <> "" ->
  requests_post E c = TokenInfo (VDict token_info) ->
  truthy (default VNone (dict_get "token" token_info)) = true ->
  jwt_decode E (default VNone (dict_get "token" token_info))
  = Claims decoded_token ->
  truthy (default VNone (dict_get "sub" decoded_token)) = false ->
  getAccessToken E (Some c) session_id w
  = (Raised (HTTPException 401 "Invalid Token: Missing Username"), w).
Proof.
  intros Hc Hpost Htoken Hdecode Hsub.
  rewrite (getAccessToken_exchange E c session_id w Hc), Hpost.
  cbn zeta. rewrite Htoken, Hdecode, Hsub. reflexivity.
Qed.

Lemma getAccessToken_missing_sub_witness :
  getAccessToken Fixture.env (Some "signed:") "sid-1" Fixture.w0
  = (Raised (HTTPException 401 "Invalid Token: Missing Username"),
     Fixture.w0).
Proof.
  apply (getAccessToken_missing_sub Fixture.env "signed:" "sid-1" Fixture.w0
           [("token", VStr "signed:")] [("sub", VStr "")]).
  - discriminate.
  - reflexivity.
  - reflexivity.
  - reflexivity.
  - reflexivity.
Defined.

(** From the callback to the next request: the session issued for a
    subject is accepted under the new cookie, with the role of that
    subject, as long as the JSON library reads back what it wrote. *)
Theorem callback_then_validate (E : Env) (c session_id u : string)
    (w : world E) (token_info decoded_token : list (string * value)) :
  c <> "" ->
  session_id <> "" ->
  requests_post E c = TokenInfo (VDict token_info) ->
  truthy (default VNone (dict_get "token" token_info)) = true ->
  jwt_decode E (default VNone (dict_get "token" token_info))
  = Claims decoded_token ->
  dict_get "sub" decoded_token = Some (VStr u) ->
  u <> "" ->
  json_dumps E (VDict [("username", VStr u); ("role", VNone)]) <> "" ->
  json_loads E (json_dumps E (VDict [("username", VStr u); ("role", VNone)]))
  = Some (VDict [("username", VStr u); ("role", VNone)]) ->
  fst (validate_session E (Some session_id)
         (snd (getAccessToken E (Some c) session_id w)))
  = Returned {| username := u; role := get_role u |}.
Proof.
  intros Hc Hid Hpost Htoken Hdecode Hsub Hu Hdumps Hloads.
  rewrite (getAccessToken_exchange E c session_id w Hc), Hpost.
  cbn zeta. rewrite Htoken, Hdecode, Hsub.
  cbn [default from_option id truthy negb].
  apply PyStrFacts.is_empty_false in Hu as Hu'. rewrite Hu'. cbn [negb snd].
  now rewrite (issued_session_validates E w session_id u Hid Hu Hdumps Hloads).
Qed.

Lemma callback_then_validate_witness :
  fst (validate_session Fixture.env (Some "sid-1")
         (snd (getAccessToken Fixture.env (Some "signed:bilal_u2") "sid-1"
                 Fixture.w0)))
  = Returned {| username := "bilal_u2"; role := get_role "bilal_u2" |}.
Proof.
  apply (callback_then_validate Fixture.env "signed:bilal_u2" "sid-1"
           "bilal_u2" Fixture.w0 [("token", VStr "signed:bilal_u2")]
           [("sub", VStr "bilal_u2")]).
  - discriminate.
  - discriminate.
  - reflexivity.
  - reflexivity.
  - reflexivity.
  - reflexivity.
  - discriminate.
  - vm_compute. discriminate.
  - vm_compute. reflexivity.
Defined.

(** ** Payments *)

Section PaymentFacts.

Context (E : Env).

Variables (bill_id : Z) (amount : number E) (payment_method_id : Z)
  (payment_date : datetime).

(** The handler up to the answer of the stored function. *)
Lemma post_bill_payment_run (w : world E) (row : Z) :
  select_bill E (database w) bill_id = Some row ->
  post_bill_payment E bill_id amount payment_method_id payment_date w
  = let '(db', status) :=
      fun_process_Payment E (database w) bill_id payment_date
        payment_method_id amount in
    let w' :=
      {| redis_db := redis_db w; database := db';
         calls := calls w ++ [ProcessPayment bill_id payment_date
                                payment_method_id amount] |} in
    if negb (Z.eqb status 1) then (Returned (error_page E REQUEST_FAILED), w')
    else
      match select_payment_status E db' bill_id with
      | None => (Raised TypeError, w')
      | Some paymentstatus =>
          match select_payment_method E db' payment_method_id with
          | None => (Raised TypeError, w')
          | Some pd_description =>
              (Returned
                 (TemplateResponse "payment_receipt.html"
                    (CtxPayment
                       {| pd_bill_id := bill_id;
                          pd_amount := amount;
                          pd_payment_method_id := payment_method_id;
                          pd_payment_method_description := pd_description;
                          pd_payment_date := payment_date;
                          pd_payment_status := paymentstatus |})), w')
          end
      end.
Proof.
  intros Hbill. unfold post_bill_payment. run. rewrite Hbill. run.
  destruct (fun_process_Payment E (database w) bill_id payment_date
              payment_method_id amount) as [db' status].
  destruct (negb (Z.eqb status 1)); cbn; [reflexivity|].
  destruct (select_payment_status E db' bill_id); cbn; [|reflexivity].
  destruct (select_payment_method E db' payment_method_id); reflexivity.
Qed.

End PaymentFacts.

(** A payment for a bill that does not exist goes nowhere: the error
    page "Invalid BillID provided." is rendered, the payment function is
    not called and the world is as it was. *)
Theorem post_bill_payment_unknown_bill (E : Env) (bill_id : Z)
    (amount : number E) (payment_method_id : Z) (payment_date : datetime)
    (w : world E) :
  select_bill E (database w) bill_id = None ->
  post_bill_payment E bill_id amount payment_method_id payment_date w
  = (Returned (TemplateResponse "error.html"
                 (CtxError "Invalid BillID provided.")), w).
Proof.
  intros Hbill. unfold post_bill_payment. run. rewrite Hbill. reflexivity.
Qed.

Lemma post_bill_payment_unknown_bill_witness :
  post_bill_payment Fixture.env 99 1200 1 Fixture.noon Fixture.w0
  = (Returned (TemplateResponse "error.html"
                 (CtxError "Invalid BillID provided.")), Fixture.w0).
Proof.
  apply (post_bill_payment_unknown_bill Fixture.env 99 1200 1 Fixture.noon
           Fixture.w0).
  reflexivity.
Defined.

(** A payment the stored function accepts (it returns 1) ends on the
    receipt, and the receipt shows the payment status and the method as
    the database has them after the payment, not before. *)
Theorem post_bill_payment_receipt (E : Env) (bill_id : Z)
    (amount : number E) (payment_method_id : Z) (payment_date : datetime)
    (w : world E) (row : Z) (db' : DB E) (paymentstatus : value)
    (pd_description : string) :
  select_bill E (database w) bill_id = Some row ->
  fun_process_Payment E (database w) bill_id payment_date payment_method_id
    amount = (db', 1) ->
  select_payment_status E db' bill_id = Some paymentstatus ->
  select_payment_method E db' payment_method_id = Some pd_description ->
  post_bill_payment E bill_id amount payment_method_id payment_date w
  = (Returned
       (TemplateResponse "payment_receipt.html"
          (CtxPayment
             {| pd_bill_id := bill_id;
                pd_amount := amount;
                pd_payment_method_id := payment_method_id;
                pd_payment_method_description := pd_description;
                pd_payment_date := payment_date;
                pd_payment_status := paymentstatus |})),
     {| redis_db := redis_db w; database := db';
        calls := calls w ++ [ProcessPayment bill_id payment_date
                               payment_method_id amount] |}).
Proof.
  intros Hbill Hfun Hstatus Hmethod.
  rewrite (post_bill_payment_run E bill_id amount payment_method_id
             payment_date w row Hbill), Hfun.
  cbn. now rewrite Hstatus, Hmethod.
Qed.

Lemma post_bill_payment_receipt_witness :
  post_bill_payment Fixture.env 7 1200 2 Fixture.noon Fixture.w0
  = (Returned
       (TemplateResponse "payment_receipt.html"
          (CtxPayment
             (Build_payment_details Fixture.env 7 1200 2 "Card" Fixture.noon
                (VStr "PAID")))),
     Build_world Fixture.env Fixture.redis0
       (fst (Fixture.process_payment Fixture.db0 7 Fixture.noon 2 1200))
       [@ProcessPayment Fixture.env 7 Fixture.noon 2 1200]).
Proof.
  apply (post_bill_payment_receipt Fixture.env 7 1200 2 Fixture.noon
           Fixture.w0 7
           (fst (Fixture.process_payment Fixture.db0 7 Fixture.noon 2 1200))
           (VStr "PAID") "Card"); reflexivity.
Defined.

(** A payment the stored function refuses (it returns something other
    than 1) ends on the error page; the handler has called the function
    once and keeps the database as the function left it. *)
Theorem post_bill_payment_refused (E : Env) (bill_id : Z)
    (amount : number E) (payment_method_id : Z) (payment_date : datetime)
    (w : world E) (row status : Z) (db' : DB E) :
  select_bill E (database w) bill_id = Some row ->
  fun_process_Payment E (database w) bill_id payment_date payment_method_id
    amount = (db', status) ->
  status <> 1 ->
  post_bill_payment E bill_id amount payment_method_id payment_date w
  = (Returned
       (TemplateResponse "error.html"
          (CtxError
             "An error occured while processing the request. Please try again. Make sure the values are correct")),
     {| redis_db := redis_db w; database := db';
        calls := calls w ++ [ProcessPayment bill_id payment_date
                               payment_method_id amount] |}).
Proof.
  intros Hbill Hfun Hstatus.
  rewrite (post_bill_payment_run E bill_id amount payment_method_id
             payment_date w row Hbill), Hfun.
  apply Z.eqb_neq in Hstatus. now rewrite Hstatus.
Qed.

(** A payment can be processed and still end in a server error: when
    the stored function has accepted it but the payment status of the
    bill or the description of the payment method cannot be read back,
    subscripting the missing row raises a [TypeError]; the payment stays
    in the database. *)
Theorem post_bill_payment_lost_receipt (E : Env) (bill_id : Z)
    (amount : number E) (payment_method_id : Z) (payment_date : datetime)
    (w : world E) (row : Z) (db' : DB E) :
  select_bill E (database w) bill_id = Some row ->
  fun_process_Payment E (database w) bill_id payment_date payment_method_id
    amount = (db', 1) ->
  select_payment_status E db' bill_id = None
  \/ select_payment_method E db' payment_method_id = None ->
  post_bill_payment E bill_id amount payment_method_id payment_date w
  = (Raised TypeError,
     {| redis_db := redis_db w; database := db';
        calls := calls w ++ [ProcessPayment bill_id payment_date
                               payment_method_id amount] |}).
Proof.
  intros Hbill Hfun Hrows.
  rewrite (post_bill_payment_run E bill_id amount payment_method_id
             payment_date w row Hbill), Hfun.
  cbn. destruct Hrows as [Hnone|Hnone]; rewrite Hnone; [reflexivity|].
  destruct (select_payment_status E db' bill_id); reflexivity.
Qed.

Lemma post_bill_payment_lost_receipt_witness :
  post_bill_payment Fixture.env 7 1200 9 Fixture.noon Fixture.w0
  = (Raised TypeError,
     Build_world Fixture.env Fixture.redis0
       (fst (Fixture.process_payment Fixture.db0 7 Fixture.noon 9 1200))
       [@ProcessPayment Fixture.env 7 Fixture.noon 9 1200]).
Proof.
  apply (post_bill_payment_lost_receipt Fixture.env 7 1200 9 Fixture.noon
           Fixture.w0 7
           (fst (Fixture.process_payment Fixture.db0 7 Fixture.noon 9 1200))).
  - reflexivity.
  - reflexivity.
  - right. reflexivity.
Defined.

Lemma post_bill_payment_refused_witness :
  post_bill_payment Fixture2.cautious 7 0 1 Fixture.noon Fixture2.w_cautious
  = (Returned
       (TemplateResponse "error.html"
          (CtxError
             "An error occured while processing the request. Please try again. Make sure the values are correct")),
     Build_world Fixture2.cautious Fixture.redis0 Fixture.db0
       [@ProcessPayment Fixture2.cautious 7 Fixture.noon 1 0]).
Proof.
  apply (post_bill_payment_refused Fixture2.cautious 7 0 1 Fixture.noon
           Fixture2.w_cautious 7 0 Fixture.db0).
  - reflexivity.
  - reflexivity.
  - discriminate.
Defined.

(** ** Adjustments that go through *)

(** [POST /bill-adjustments] for a bill that exists, with the amount due
    and an unset payment status: the adjustment function is called once,
    with the confirmation number built from the bill and the date; the
    receipt is rendered if it returns 1 and the error page otherwise.
    The cookie of the request plays no part. *)
Theorem post_bill_adjustments_accepted (E : Env) (req : request E)
    (w : world E) (bill_id : Z) (officer_name officer_designation : string)
    (original_bill_amount adjustment_amount : number E)
    (adjustment_reason : string) (row : Z) (amount_due : number E)
    (paymentstatus : value) (adjustment_id result : Z) (db' : DB E) :
  method req = POST ->
  path req = "/bill-adjustments" ->
  form req = AdjustmentsForm bill_id officer_name officer_designation
               original_bill_amount adjustment_amount adjustment_reason ->
  select_bill_amount E (database w) bill_id = Some (row, amount_due) ->
  number_eqb E original_bill_amount amount_due = true ->
  select_payment_status E (database w) bill_id = Some paymentstatus ->
  truthy paymentstatus = false ->
  adjustment_id_of bill_id (now req) = Some adjustment_id ->
  fun_adjust_Bill E (database w) adjustment_id bill_id (now req) officer_name
    officer_designation original_bill_amount adjustment_amount
    adjustment_reason = (db', result) ->
  app E req w
  = (Reply
       (if Z.eqb result 1 then
          TemplateResponse "adjustment_receipt.html"
            (CtxAdjustment
               {| ad_bill_id := bill_id;
                  ad_officer_name := officer_name;
                  ad_officer_designation := officer_designation;
                  ad_original_bill_amount := original_bill_amount;
                  ad_adjustment_amount := adjustment_amount;
                  ad_adjustment_reason := adjustment_reason;
                  ad_adjustment_date := now req;
                  ad_confirmation_number := adjustment_id |})
        else
          TemplateResponse "error.html"
            (CtxError
               "An error occured while processing the request. Please try again. Make sure the values are correct")),
     {| redis_db := redis_db w; database := db';
        calls := calls w
                 ++ [AdjustBill adjustment_id bill_id (now req) officer_name
                       officer_designation original_bill_amount
                       adjustment_amount adjustment_reason] |}).
Proof.
  intros Hmethod Hpath Hform Hbill Hamount Hstatus Hunpaid Hid Hfun.
  unfold app. rewrite Hmethod, Hpath.
  assert (Hroute :
    find_route E POST "/bill-adjustments" (routes E)
    = Some (fun req : request E =>
              match form req with
              | AdjustmentsForm bill_id officer_name officer_designation
                  original_bill_amount adjustment_amount adjustment_reason =>
                  Some (post_bill_adjustments E bill_id officer_name
                          officer_designation original_bill_amount
                          adjustment_amount adjustment_reason (now req))
              | _ => None
              end)) by reflexivity.
  rewrite Hroute, Hform. unfold post_bill_adjustments. run.
  rewrite Hbill, Hamount. cbn. rewrite Hstatus. cbn. rewrite Hunpaid, Hid.
  run. rewrite Hfun. cbn. destruct (Z.eqb result 1); reflexivity.
Qed.

Lemma post_bill_adjustments_accepted_witness :
  app Fixture.env (Fixture2.adjust 7 1200) Fixture.w0
  = (Reply
       (TemplateResponse "adjustment_receipt.html"
          (CtxAdjustment
             (Build_adjustment_details Fixture.env 7 "Noor" "SDO" 1200 (-40)
                "meter fault" Fixture.noon 720243))),
     Build_world Fixture.env Fixture.redis0
       (fst (Fixture.adjust_bill Fixture.db0 720243 7 Fixture.noon "Noor"
               "SDO" 1200 (-40) "meter fault"))
       [@AdjustBill Fixture.env 720243 7 Fixture.noon "Noor" "SDO" 1200
          (-40) "meter fault"]).
Proof.
  apply (post_bill_adjustments_accepted Fixture.env (Fixture2.adjust 7 1200)
           Fixture.w0 7 "Noor" "SDO" 1200 (-40) "meter fault" 7 1200 VNone
           720243 1
           (fst (Fixture.adjust_bill Fixture.db0 720243 7 Fixture.noon "Noor"
                   "SDO" 1200 (-40) "meter fault"))); reflexivity.
Defined.

(** ** Roles, read backwards *)

Lemma endswith_exclusive (u s1 s2 : string) :
  String.length s1 = String.length s2 ->
  s1 <> s2 ->
  PyStr.endswith u s1 = true -> PyStr.endswith u s2 = false.
Proof.
  intros Hlen Hne H1. apply PyStrFacts.endswith_spec in H1 as [p ->].
  rewrite (PyStrFacts.endswith_tail p s1 s2 Hlen).
  now apply String.eqb_neq.
Qed.

(** The role tells the suffix: a user is a customer exactly when the
    name ends in [_u1], a bank cashier exactly when it ends in [_u2], a
    utility employee exactly when it ends in [_u3], and has no role
    exactly when it ends in none of the three. *)
Theorem get_role_characterised (u : string) :
  (get_role u = Some "customer" <-> exists p, u = p +:+ "_u1")
  /\ (get_role u = Some "bank_cashier" <-> exists p, u = p +:+ "_u2")
  /\ (get_role u = Some "disco_employee" <-> exists p, u = p +:+ "_u3")
  /\ (get_role u = None
      <-> ~ (exists p, u = p +:+ "_u1") /\ ~ (exists p, u = p +:+ "_u2")
          /\ ~ (exists p, u = p +:+ "_u3")).
Proof.
  rewrite <- !PyStrFacts.endswith_spec. unfold get_role.
  destruct (PyStr.endswith u "_u1") eqn:H1.
  - rewrite (endswith_exclusive u "_u1" "_u2" eq_refl ltac:(discriminate) H1).
    rewrite (endswith_exclusive u "_u1" "_u3" eq_refl ltac:(discriminate) H1).
    intuition (try discriminate; try congruence).
  - destruct (PyStr.endswith u "_u2") eqn:H2.
    + rewrite (endswith_exclusive u "_u2" "_u3" eq_refl ltac:(discriminate)
                 H2).
      intuition (try discriminate; try congruence).
    + destruct (PyStr.endswith u "_u3") eqn:H3;
        intuition (try discriminate; try congruence).
Qed.

(** A name of fewer than three characters, the empty name included, has
    no role. *)
Theorem get_role_short_name (u : string) :
  (String.length u < 3)%nat -> get_role u = None.
Proof.
  intros Hlen. unfold get_role, PyStr.endswith.
  cbn [String.length].
  destruct (Nat.leb_spec 3 (String.length u)) as [Hge|_]; [lia|].
  reflexivity.
Qed.

Lemma get_role_short_name_witness : get_role "u1" = None.
Proof. apply get_role_short_name. cbn. lia. Defined.

(** ** The confirmation number of an adjustment *)

Module DecimalText.

Import Decimal DecimalPos.Unsigned.

(** The value of a numeral, from its leading digit. *)
Lemma of_uint_cons (d : uint) :
  d <> Nil ->
  Pos.of_uint d = (hd d * 10 ^ usize (tl d) + Pos.of_uint (tl d))%N.
Proof.
  destruct d; intros Hd; try (now contradict Hd); cbn [hd tl];
    try (cbn [Pos.of_uint]; rewrite of_uint_acc_rev, <- of_uint_alt; lia).
  cbn [Pos.of_uint]. lia.
Qed.

(** Reading digits written in front of a text that reads as a numeral. *)
Lemma parse_app (a : uint) (s : string) (d : uint) :
  NilEmpty.uint_of_string s = Some d ->
  exists d',
    NilEmpty.uint_of_string (NilEmpty.string_of_uint a +:+ s) = Some d'
    /\ Pos.of_uint d' = (Pos.of_uint a * 10 ^ usize d + Pos.of_uint d)%N
    /\ usize d' = (usize a + usize d)%N.
Proof.
  intros Hs.
  induction a as [|a IH|a IH|a IH|a IH|a IH|a IH|a IH|a IH|a IH|a IH].
  1: { exists d. split; [exact Hs|]. cbn [Pos.of_uint usize]. split; lia. }
  all: destruct IH as (d' & Hparse & Hval & Hsize).
  all: cbn [NilEmpty.string_of_uint].
  all: match goal with
       | |- context [String ?c ?x +:+ ?t] =>
           change (String c x +:+ t) with (String c (x +:+ t))
       end.
  all: cbn [NilEmpty.uint_of_string]; rewrite Hparse; cbn [uint_of_char].
  all: eexists; split; [reflexivity|].
  all: split; [|cbn [usize]; lia].
  all: match goal with
       | |- Pos.of_uint ?x = (Pos.of_uint ?y * _ + _)%N =>
           rewrite (of_uint_cons x), (of_uint_cons y) by discriminate
       end.
  all: cbn [hd tl]; rewrite Hval, Hsize, N.pow_add_r.
  all: lia.
Qed.

Lemma length_string_of_uint (d : uint) :
  N.of_nat (String.length (NilEmpty.string_of_uint d)) = usize d.
Proof.
  induction d; cbn [NilEmpty.string_of_uint String.length usize];
    rewrite ?Nat2N.inj_succ, ?IHd; reflexivity.
Qed.

(** [str(n)] of a natural number is its digits, and there is one at
    least. *)
Lemma str_of_int_nonneg (n : Z) :
  0 <= n ->
  PyStr.str_of_int n = NilEmpty.string_of_uint (N.to_uint (Z.to_N n))
  /\ N.to_uint (Z.to_N n) <> Nil.
Proof.
  intros Hn. destruct n as [|p|p]; [| |lia].
  - split; [reflexivity|discriminate].
  - cbn [Z.to_N N.to_uint]. unfold PyStr.str_of_int.
    cbn [Z.to_int NilZero.string_of_int].
    pose proof (DecimalPos.Unsigned.to_uint_nonnil p) as Hnil.
    split; [|exact Hnil].
    unfold NilZero.string_of_uint. destruct (Pos.to_uint p); try reflexivity.
    now contradict Hnil.
Qed.

Lemma int_of_str_digits (d : uint) (s : string) :
  d <> Nil ->
  PyStr.int_of_str (NilEmpty.string_of_uint d +:+ s)
  = match NilEmpty.uint_of_string (NilEmpty.string_of_uint d +:+ s) with
    | Some d' => Some (Z.of_N (Pos.of_uint d'))
    | None => None
    end.
Proof.
  intros Hd. unfold PyStr.int_of_str, NilZero.int_of_string.
  destruct d; try (now contradict Hd); cbn [NilEmpty.string_of_uint].
  all: match goal with
       | |- context [String ?c ?x +:+ ?t] =>
           change (String c x +:+ t) with (String c (x +:+ t))
       end.
  all: cbn [Ascii.eqb Bool.eqb NilZero.uint_of_string].
  all: destruct (NilEmpty.uint_of_string _); reflexivity.
Qed.

(** [int(str(a) + str(b) + str(c))] for natural numbers: [a] shifted
    left by the digits of [b] and [c], [b] by the digits of [c]. *)
Lemma int_of_str_concat (a b c : Z) :
  0 <= a -> 0 <= b -> 0 <= c ->
  PyStr.int_of_str
    (PyStr.str_of_int a +:+ PyStr.str_of_int b +:+ PyStr.str_of_int c)
  = Some (a * 10 ^ (Z.of_nat (String.length (PyStr.str_of_int b))
                    + Z.of_nat (String.length (PyStr.str_of_int c)))
          + b * 10 ^ Z.of_nat (String.length (PyStr.str_of_int c))
          + c).
Proof.
  intros Ha Hb Hc.
  destruct (str_of_int_nonneg a Ha) as [-> Hda].
  destruct (str_of_int_nonneg b Hb) as [-> _].
  destruct (str_of_int_nonneg c Hc) as [-> _].
  set (da := N.to_uint (Z.to_N a)) in *.
  set (db := N.to_uint (Z.to_N b)).
  set (dc := N.to_uint (Z.to_N c)).
  destruct (parse_app db _ dc (NilEmpty.usu dc)) as (d1 & Hp1 & Hv1 & Hs1).
  destruct (parse_app da _ d1 Hp1) as (d2 & Hp2 & Hv2 & Hs2).
  rewrite (int_of_str_digits da _ Hda), Hp2. f_equal.
  rewrite Hv2, Hs1, Hv1.
  assert (Hval : forall n,
            0 <= n -> Z.of_N (Pos.of_uint (N.to_uint (Z.to_N n))) = n).
  { intros n Hn.
    change (Pos.of_uint (N.to_uint (Z.to_N n)))
      with (N.of_uint (N.to_uint (Z.to_N n))).
    rewrite DecimalN.Unsigned.of_to. now apply Z2N.id. }
  rewrite <- !length_string_of_uint.
  rewrite !N2Z.inj_add, !N2Z.inj_mul, !N2Z.inj_pow, !N2Z.inj_add, !nat_N_Z.
  subst da db dc. rewrite !Hval by assumption.
  change (Z.of_N 10) with 10. rewrite Z.pow_add_r by lia. ring.
Qed.

End DecimalText.

(** For a bill number, a year and a month that are not negative, the
    confirmation number is always built (no [ValueError]), and it is the
    bill number followed by the digits of the year and of the month:
    [bill_id * 10^(digits of year and month) + year * 10^(digits of
    month) + month]. *)
Theorem adjustment_id_value (bill_id : Z) (adjustment_DATE : datetime) :
  0 <= bill_id ->
  0 <= year adjustment_DATE ->
  0 <= month adjustment_DATE ->
  adjustment_id_of bill_id adjustment_DATE
  = Some (bill_id
          * 10 ^ (Z.of_nat (String.length
                              (PyStr.str_of_int (year adjustment_DATE)))
                  + Z.of_nat (String.length
                                (PyStr.str_of_int (month adjustment_DATE))))
          + year adjustment_DATE
            * 10 ^ Z.of_nat (String.length
                               (PyStr.str_of_int (month adjustment_DATE)))
          + month adjustment_DATE).
Proof.
  intros Hbill Hyear Hmonth. unfold adjustment_id_of.
  now apply DecimalText.int_of_str_concat.
Qed.

Lemma adjustment_id_value_witness :
  adjustment_id_of 7 Fixture.noon = Some (7 * 10 ^ (4 + 1) + 2024 * 10 ^ 1 + 3).
Proof.
  apply (adjustment_id_value 7 Fixture.noon); cbn; lia.
Defined.

(** Two different bills adjusted in the same month never get the same
    confirmation number. *)
Theorem adjustment_id_distinct (bill1 bill2 : Z) (adjustment_DATE : datetime) :
  0 <= bill1 ->
  0 <= bill2 ->
  0 <= year adjustment_DATE ->
  0 <= month adjustment_DATE ->
  bill1 <> bill2 ->
  adjustment_id_of bill1 adjustment_DATE
  <> adjustment_id_of bill2 adjustment_DATE.
Proof.
  intros H1 H2 Hyear Hmonth Hne. unfold adjustment_id_of.
  rewrite !DecimalText.int_of_str_concat by assumption.
  intros [= Heq]. apply Hne.
  apply (Z.mul_reg_r _ _
           (10 ^ (Z.of_nat (String.length
                              (PyStr.str_of_int (year adjustment_DATE)))
                  + Z.of_nat (String.length
                                (PyStr.str_of_int
                                   (month adjustment_DATE))))));
    [apply Z.pow_nonzero; lia|lia].
Qed.

Lemma adjustment_id_distinct_witness :
  adjustment_id_of 7 Fixture.noon <> adjustment_id_of 8 Fixture.noon.
Proof.
  apply (adjustment_id_distinct 7 8 Fixture.noon); cbn; lia.
Defined.

(** ** The refusals of an adjustment, in their order *)

(** [POST /bill-adjustments] checks the bill first, then the amount,
    then the payment status, and each refusal has its own message: a
    bill that does not exist is "Invalid BillID provided."; for a bill
    that exists, an amount other than the amount due is refused before
    the payment status is looked at; and a bill with the right amount
    that is marked as paid is refused as already paid.  Nothing is
    called and nothing changes in the three cases. *)
Theorem post_bill_adjustments_refusals (E : Env) (bill_id : Z)
    (officer_name officer_designation : string)
    (original_bill_amount adjustment_amount : number E)
    (adjustment_reason : string) (adjustment_DATE : datetime) (w : world E) :
  let outcome :=
    post_bill_adjustments E bill_id officer_name officer_designation
      original_bill_amount adjustment_amount adjustment_reason
      adjustment_DATE w in
  (select_bill_amount E (database w) bill_id = None ->
   outcome
   = (Returned (TemplateResponse "error.html"
                  (CtxError "Invalid BillID provided.")), w))
  /\ (forall row amount_due,
        select_bill_amount E (database w) bill_id = Some (row, amount_due) ->
        number_eqb E original_bill_amount amount_due = false ->
        outcome
        = (Returned
             (TemplateResponse "error.html"
                (CtxError
                   "The original bill amount provided does not match the actual amount due.")),
           w))
  /\ (forall row amount_due paymentstatus,
        select_bill_amount E (database w) bill_id = Some (row, amount_due) ->
        number_eqb E original_bill_amount amount_due = true ->
        select_payment_status E (database w) bill_id = Some paymentstatus ->
        truthy paymentstatus = true ->
        outcome
        = (Returned
             (TemplateResponse "error.html"
                (CtxError
                   "The bill has already been paid. Adjustments cannot be made to a paid bill.")),
           w)).
Proof.
  cbn zeta. unfold post_bill_adjustments. run. repeat split.
  - intros ->. reflexivity.
  - intros row amount_due -> ->. reflexivity.
  - intros row amount_due paymentstatus -> -> Hstatus Hpaid. cbn.
    rewrite Hstatus. cbn. rewrite Hpaid. reflexivity.
Qed.

Lemma post_bill_adjustments_refusals_witness :
  post_bill_adjustments Fixture.env 8 "Noor" "SDO" 1 (-40) "meter fault"
    Fixture.noon Fixture.w0
  = (Returned
       (TemplateResponse "error.html"
          (CtxError
             "The original bill amount provided does not match the actual amount due.")),
     Fixture.w0).
Proof.
  refine (proj1 (proj2 (post_bill_adjustments_refusals Fixture.env 8 "Noor"
            "SDO" 1 (-40) "meter fault" Fixture.noon Fixture.w0)) 8 640 _ _).
  - reflexivity.
  - reflexivity.
Defined.

(** An adjustment for a bill that has no row of payment details is
    neither made nor refused with a page: reading the status of the
    missing row raises a [TypeError], and the client gets a server
    error. *)
Theorem post_bill_adjustments_unrecorded (E : Env) (req : request E)
    (w : world E) (bill_id : Z) (officer_name officer_designation : string)
    (original_bill_amount adjustment_amount : number E)
    (adjustment_reason : string) (row : Z) (amount_due : number E) :
  method req = POST ->
  path req = "/bill-adjustments" ->
  form req = AdjustmentsForm bill_id officer_name officer_designation
               original_bill_amount adjustment_amount adjustment_reason ->
  select_bill_amount E (database w) bill_id = Some (row, amount_due) ->
  number_eqb E original_bill_amount amount_due = true ->
  select_payment_status E (database w) bill_id = None ->
  app E req w = (ServerError TypeError, w).
Proof.
  intros Hmethod Hpath Hform Hbill Hamount Hstatus.
  unfold app. rewrite Hmethod, Hpath.
  assert (Hroute :
    find_route E POST "/bill-adjustments" (routes E)
    = Some (fun req : request E =>
              match form req with
              | AdjustmentsForm bill_id officer_name officer_designation
                  original_bill_amount adjustment_amount adjustment_reason =>
                  Some (post_bill_adjustments E bill_id officer_name
                          officer_designation original_bill_amount
                          adjustment_amount adjustment_reason (now req))
              | _ => None
              end)) by reflexivity.
  rewrite Hroute, Hform.
  now rewrite (post_bill_adjustments_no_status E bill_id officer_name
                 officer_designation original_bill_amount adjustment_amount
                 adjustment_reason (now req) w row amount_due Hbill Hamount
                 Hstatus).
Qed.

Lemma post_bill_adjustments_unrecorded_witness :
  app Fixture.env (Fixture2.adjust 9 500) Fixture2.w_unrecorded
  = (ServerError TypeError, Fixture2.w_unrecorded).
Proof.
  apply (post_bill_adjustments_unrecorded Fixture.env (Fixture2.adjust 9 500)
           Fixture2.w_unrecorded 9 "Noor" "SDO" 500 (-40) "meter fault"
           9 500); reflexivity.
Defined.

(** ** An empty payload *)

(** A token whose entry in Redis is the empty string is treated like a
    token Redis does not hold: the payload is not decoded, and the
    request is refused with 401 "Token has expired". *)
Theorem validate_session_empty_payload (E : Env) (token : string) (ttl : Z)
    (w : world E) :
  token <> "" ->
  redis_db w !! token = Some ("", ttl) ->
  validate_session E (Some token) w
  = (Raised (HTTPException 401 "Token has expired"),
     logged E w [RedisGet token]).
Proof.
  intros Htoken Hstored.
  now rewrite (validate_session_lookup E token w Htoken), Hstored.
Qed.

Lemma validate_session_empty_payload_witness :
  validate_session Fixture.env (Some "s-hollow") Fixture2.w_hollow
  = (Raised (HTTPException 401 "Token has expired"),
     logged Fixture.env Fixture2.w_hollow [RedisGet "s-hollow"]).
Proof.
  apply (validate_session_empty_payload Fixture.env "s-hollow" 15
           Fixture2.w_hollow).
  - discriminate.
  - vm_compute. reflexivity.
Defined.
